(** * garak-gui-ollama: the scan backend of [backend/main.py]

    A shallow embedding of the scan-execution subsystem: the identifier
    normaliser nested in [GarakRunner.run_scan], the result parser
    [GarakRunner.parse_results], the scan record store ([load_scans],
    [save_scan]), the WebSocket handler [websocket_scan], the query
    endpoints, the Ollama client and the plugin catalogue.

    Python strings are modelled as [string] (text restricted to one-byte
    characters) and Python exceptions as values carried by an
    exception-and-state monad: [exn] for the [Exception] hierarchy, which
    [except Exception] catches, and [raised] for everything a call can end
    with, which only a bare [except] catches. Everything the handler
    observes from outside (the client, the clock, the scanning engine, the
    file system under the scan directory) is a read-only record [Env];
    [scans.json] is part of the process state, with its permissions and
    with what [json.load] makes of its text.

    Of the collaborators, the engine alone is taken to end outside the
    [Exception] hierarchy: [cli.main] parses a command line and can leave
    through [sys.exit]. The cancellation of the handler's task by the
    server and a keyboard interrupt arrive from outside, at any [await];
    the runs described here are the runs that are not interrupted. A list
    in [scans.json] is a list of scan records, as the program writes
    them. *)

From Stdlib Require Import String Ascii List Bool Arith Lia.
Import ListNotations.
Set Warnings "-register-all".
Open Scope list_scope.
Open Scope string_scope.

(** ** Python string primitives *)

Module PyStr.

(** [s[n:]] *)
Fixpoint drop (n : nat) (s : string) : string :=
  match n, s with
  | O, _ => s
  | S _, EmptyString => EmptyString
  | S k, String _ t => drop k t
  end.

(** [s.startswith(p)] *)
Definition startswith (s p : string) : bool := String.prefix p s.

Fixpoint rev_acc (s acc : string) : string :=
  match s with
  | EmptyString => acc
  | String a t => rev_acc t (String a acc)
  end.

Definition rev (s : string) : string := rev_acc s EmptyString.

(** [s.endswith(p)] *)
Definition endswith (s p : string) : bool := String.prefix (rev p) (rev s).

(** [c.isspace()] on one-byte text: TAB, LF, VT, FF, CR, FS, GS, RS, US,
    the blank, NEL and the no-break space. *)
Definition isspace (c : ascii) : bool :=
  let n := nat_of_ascii c in
  (Nat.leb 9 n && Nat.leb n 13) || (Nat.leb 28 n && Nat.leb n 32)
  || Nat.eqb n 133 || Nat.eqb n 160.

Fixpoint lstrip (s : string) : string :=
  match s with
  | EmptyString => EmptyString
  | String a t => if isspace a then lstrip t else s
  end.

(** [s.strip()] *)
Definition strip (s : string) : string := rev (lstrip (rev (lstrip s))).

(** Truth value of a [str]: non-empty. *)
Definition truthy (s : string) : bool :=
  match s with EmptyString => false | String _ _ => true end.

End PyStr.

(** ** Identifier normaliser *)

(** [normalize_plugin_name], the helper nested in [run_scan]. *)
Definition normalize_plugin_name (name category : string) : string :=
  let full_prefix := "garak." ++ category ++ "." in
  if PyStr.startswith name full_prefix then
    PyStr.drop (String.length full_prefix) name
  else
    let short_prefix := category ++ "." in
    if PyStr.startswith name short_prefix then
      PyStr.drop (String.length short_prefix) name
    else name.

Definition full_prefix (category : string) : string :=
  "garak." ++ category ++ ".".

Definition short_prefix (category : string) : string := category ++ ".".

(** The name still carries one of the two prefixes of its category. *)
Definition has_plugin_prefix (name category : string) : bool :=
  PyStr.startswith name (full_prefix category)
  || PyStr.startswith name (short_prefix category).

(** ** Exceptions and JSON values *)

(** The exceptions the handlers tell apart: [WebSocketDisconnect] has its
    own [except] clause in [websocket_scan]; every other subclass of
    [Exception] is kept with its class name and its [str()]. *)
Inductive exn : Type :=
| WebSocketDisconnect (text : string)
| Exception (cls msg : string).

(** What a Python call can end with instead of returning: an exception of
    the [Exception] hierarchy, which [except Exception] catches, or one
    that only derives from [BaseException] ([SystemExit] above all), which
    it does not catch. *)
Inductive raised : Type :=
| Exc (e : exn)
| BaseException (cls msg : string).

Coercion Exc : exn >-> raised.

(** [str(e)] *)
Definition str_exn (e : exn) : string :=
  match e with
  | WebSocketDisconnect text => text
  | Exception _ msg => msg
  end.

(** What [json.loads] returns; a number is kept as it is written. *)
Inductive json : Type :=
| JNull
| JBool (b : bool)
| JNumber (literal : string)
| JString (s : string)
| JArray (items : list json)
| JObject (members : list (string * json)).

(** [type(x).__name__] of a decoded number: [json.loads] makes a [float]
    of a literal with a fraction or an exponent and of [NaN] and
    [Infinity], and an [int] of any other. *)
Fixpoint has_char (p : ascii -> bool) (s : string) : bool :=
  match s with
  | EmptyString => false
  | String a t => p a || has_char p t
  end.

Definition number_type (literal : string) : string :=
  if has_char (fun a => existsb (Ascii.eqb a) ["."; "e"; "E"; "N"; "I"]%char)
              literal
  then "float" else "int".

(** [type(x).__name__] of a decoded value. *)
Definition json_type (v : json) : string :=
  match v with
  | JNull => "NoneType"
  | JBool _ => "bool"
  | JNumber literal => number_type literal
  | JString _ => "str"
  | JArray _ => "list"
  | JObject _ => "dict"
  end.

(** The [AttributeError] of a method the value does not have. *)
Definition no_attribute (type_name attribute : string) : exn :=
  Exception "AttributeError"
    ("'" ++ type_name ++ "' object has no attribute '" ++ attribute ++ "'").

(** How a call ends: with a value, or with what it raises. *)
Inductive result (E A : Type) : Type :=
| Ok (a : A)
| Raise (e : E).

Arguments Ok {E A} & a.
Arguments Raise {E A} & e.
Arguments pair {A B} & a b.

(** The end of a computation of the program, which any exception can
    leave. A collaborator that raises nothing outside the [Exception]
    hierarchy has results of type [result exn]. *)
Definition outcome (A : Type) : Type := result raised A.

Definition returns {E A : Type} (o : result E A) : bool :=
  match o with Ok _ => true | Raise _ => false end.

(** [json.loads] of the standard library: the decoded value, or the
    [JSONDecodeError] it raises. *)
Class JsonDecoder : Type := json_loads : string -> result exn json.

(** ** Data model *)

Module ScanResult.

(** The dictionary built by [parse_results]. *)
Record t : Type := mk {
  summary : list (string * json);
  details : list json;
  report_html : option string;
  report_path : option string
}.

Definition append_detail (data : json) (r : t) : t :=
  mk (summary r) (details r ++ [data])%list (report_html r) (report_path r).

Definition set_report (html path : string) (r : t) : t :=
  mk (summary r) (details r) (Some html) (Some path).

End ScanResult.

Module ScanRecord.

(** The dictionary stored per scan in [scans.json]; [results] is [None]
    while the key is absent. *)
Record t : Type := mk {
  id : string;
  timestamp : string;
  model_name : string;
  probes : list string;
  detectors : option (list string);
  description : option string;
  status : string;
  results : option ScanResult.t
}.

Definition set_status (s : string) (r : t) : t :=
  mk (id r) (timestamp r) (model_name r) (probes r) (detectors r)
     (description r) s (results r).

Definition set_results (res : ScanResult.t) (r : t) : t :=
  mk (id r) (timestamp r) (model_name r) (probes r) (detectors r)
     (description r) (status r) (Some res).

End ScanRecord.

(** The JSON object a client sends first; a field is [None] when its key
    is missing. *)
Record RequestData : Type := {
  data_model_name : option string;
  data_probes : option (list string);
  data_detectors : option (list string);
  data_description : option string
}.

(** Messages of the progress channel, by their ["type"]. *)
Inductive event : Type :=
| Status (message : string) (progress : nat)
| Complete (scan_id : string) (results : ScanResult.t)
| Error (message : string).

Definition is_terminal (e : event) : bool :=
  match e with
  | Status _ _ => false
  | Complete _ _ | Error _ => true
  end.

(** ** The scan directory *)

(** What [open(file, 'r')] and the iteration over the file give: the lines
    of a text file, or the exception raised on opening (a directory, a
    file without read permission). *)
Inductive node : Type :=
| TextFile (lines : list string)
| NotReadable (e : exn).

Record DirEntry : Type := { entry_name : string; entry_node : node }.

(** A [Path] to a directory with the entries found there, in the order the
    file system lists them. *)
Record Dir : Type := { dir_path : string; dir_entries : list DirEntry }.

(** [fnmatch] for a pattern [prefix*suffix]. *)
Definition fnmatch_star (prefix suffix name : string) : bool :=
  PyStr.startswith name prefix && PyStr.endswith name suffix
  && Nat.leb (String.length prefix + String.length suffix) (String.length name).

(** [output_dir.glob("prefix*suffix")] *)
Definition glob (d : Dir) (prefix suffix : string) : list DirEntry :=
  filter (fun e => fnmatch_star prefix suffix (entry_name e)) (dir_entries d).

(** [str(file)] for an entry of the directory. *)
Definition entry_path (d : Dir) (e : DirEntry) : string :=
  dir_path d ++ "/" ++ entry_name e.

(** ** Collaborators *)

(** One accepted or refused connection. [ws_link n] is the fate of the
    [n]-th [send_json] on this socket: delivered, or the exception it
    raises. *)
Record WebSocket : Type := {
  ws_id : nat;
  ws_accept : option exn;
  ws_receive_json : result exn RequestData;
  ws_link : nat -> option exn
}.

(** One call of the engine's [cli.main]: what it raises, if anything, be
    it an exception or a [SystemExit], and what the scan directory holds
    once it is over. *)
Record EngineRun : Type := {
  engine_raises : option raised;
  engine_artifacts : list DirEntry
}.

Record Env : Type := {
  uuid4 : string;
  now_isoformat : string;
  cwd : string;
  import_garak : option exn;
  mkdir : string -> option exn;
  cli_main : list string -> EngineRun
}.

(** ** Process state *)

Inductive level : Type := INFO | ERROR.

(** A value [json.load] can give that is not a list: a dictionary, [None],
    a truth value, a number or a string. *)
Inductive NotList : Type :=
| PyDict (members : list (string * json))
| PyNone
| PyBool (b : bool)
| PyNumber (literal : string)
| PyText (s : string).

Definition type_name (v : NotList) : string :=
  match v with
  | PyDict _ => "dict"
  | PyNone => "NoneType"
  | PyBool _ => "bool"
  | PyNumber literal => number_type literal
  | PyText _ => "str"
  end.

(** What [json.load] makes of the text of [scans.json]: the exception it
    raises on text that is not JSON, a value that is not a list, or a list
    of scan records, as the program writes them. *)
Inductive Content : Type :=
| Undecodable (e : exn)
| Holds (v : NotList)
| Records (scans : list ScanRecord.t).

(** [scans.json] on disk: missing from the data directory, or there with
    its permissions and its content. *)
Inductive FileState : Type :=
| Absent
| File (readable writable : bool) (content : Content).

(** A file anyone can read and write that holds a list of records. *)
Definition Scans (scans : list ScanRecord.t) : FileState :=
  File true true (Records scans).

(** What [load_scans] and the loop over it work on. *)
Inductive StoreValue : Type :=
| RecordList (scans : list ScanRecord.t)
| Other (v : NotList).

(** [sent] keeps every [send_json] on the connection with its fate: [None]
    when the message was delivered, the exception when it was refused. *)
Record World : Type := {
  sent : list (event * option exn);
  scans_file : FileState;
  active_connections : list nat;
  log : list (level * string)
}.

(** The events the client received, oldest first. *)
Definition delivered (w : World) : list event :=
  map fst (filter (fun p => match snd p with None => true | Some _ => false end)
                  (sent w)).

Definition attempted (w : World) : list event := map fst (sent w).

(** ** Exception-and-state monad

    A computation runs on the process state and the local variables [L] of
    the function it belongs to. Both survive a raised exception, as the
    effects of a Python statement do. *)

Definition M (L A : Type) : Type := World * L -> outcome A * (World * L).

Definition ret {L A : Type} (a : A) : M L A := fun s => (Ok a, s).

Definition raise {L A : Type} (e : raised) : M L A := fun s => (Raise e, s).

Definition bind {L A B : Type} (m : M L A) (k : A -> M L B) : M L B :=
  fun s =>
    match m s with
    | (Ok a, s') => k a s'
    | (Raise e, s') => (Raise e, s')
    end.

Declare Scope py_scope.
Delimit Scope py_scope with py.

Notation "x <- m ;; k" := (bind m (fun x => k))
  (at level 100, m at next level, right associativity) : py_scope.
Notation "m ;; k" := (bind m (fun _ => k))
  (at level 100, right associativity) : py_scope.

Open Scope py_scope.

(** [try: body except Exception as e: handler e]; what only derives from
    [BaseException] passes through. *)
Definition try_except {L A : Type} (body : M L A) (handler : exn -> M L A)
  : M L A :=
  fun s =>
    match body s with
    | (Ok a, s') => (Ok a, s')
    | (Raise (Exc e), s') => handler e s'
    | (Raise (BaseException cls msg), s') => (Raise (BaseException cls msg), s')
    end.

(** [try: body except: handler], the bare [except] that catches
    everything. *)
Definition try_except_all {L A : Type} (body : M L A) (handler : M L A)
  : M L A :=
  fun s =>
    match body s with
    | (Ok a, s') => (Ok a, s')
    | (Raise _, s') => handler s'
    end.

(** [try: body finally: cleanup] *)
Definition try_finally {L A : Type} (body : M L A) (cleanup : M L unit)
  : M L A :=
  fun s =>
    match body s with
    | (r, s') =>
        match cleanup s' with
        | (Ok _, s'') => (r, s'')
        | (Raise e, s'') => (Raise e, s'')
        end
    end.

(** [for x in xs: body x] *)
Fixpoint for_each {L X : Type} (xs : list X) (body : X -> M L unit)
  : M L unit :=
  match xs with
  | [] => ret tt
  | x :: rest => body x ;; for_each rest body
  end.

(** A call: the callee starts on its own local variables, which are
    dropped when it returns or raises. *)
Definition call {L L' A : Type} (locals : L') (callee : M L' A) : M L A :=
  fun s =>
    match callee (fst s, locals) with
    | (r, (w, _)) => (r, (w, snd s))
    end.

Definition get_local {L : Type} : M L L := fun s => (Ok (snd s), s).

Definition modify_local {L : Type} (f : L -> L) : M L unit :=
  fun s => (Ok tt, (fst s, f (snd s))).

Definition modify_world {L : Type} (f : World -> World) : M L unit :=
  fun s => (Ok tt, (f (fst s), snd s)).

Definition get_world {L : Type} : M L World := fun s => (Ok (fst s), s).

(** An external call that either returns or raises. *)
Definition may_raise {L : Type} (r : option exn) : M L unit :=
  match r with
  | None => ret tt
  | Some e => raise e
  end.

(** An external call that can also end outside the [Exception]
    hierarchy. *)
Definition may_raise_any {L : Type} (r : option raised) : M L unit :=
  match r with
  | None => ret tt
  | Some e => raise e
  end.

(** The result of a collaborator, in a computation of the program. *)
Definition lift_result {L A : Type} (o : result exn A) : M L A :=
  fun s =>
    match o with
    | Ok a => (Ok a, s)
    | Raise e => (Raise e, s)
    end.

(** ** Primitive effects *)

Definition push_log (lv : level) (msg : string) (w : World) : World :=
  {| sent := sent w;
     scans_file := scans_file w;
     active_connections := active_connections w;
     log := (log w ++ [(lv, msg)])%list |}.

Definition push_sent (e : event) (r : option exn) (w : World) : World :=
  {| sent := (sent w ++ [(e, r)])%list;
     scans_file := scans_file w;
     active_connections := active_connections w;
     log := log w |}.

Definition put_scans_file (f : FileState) (w : World) : World :=
  {| sent := sent w;
     scans_file := f;
     active_connections := active_connections w;
     log := log w |}.

Definition put_connections (l : list nat) (w : World) : World :=
  {| sent := sent w;
     scans_file := scans_file w;
     active_connections := l;
     log := log w |}.

(** [logger.info], [logger.error] *)
Definition logger_info {L : Type} (msg : string) : M L unit :=
  modify_world (push_log INFO msg).

Definition logger_error {L : Type} (msg : string) : M L unit :=
  modify_world (push_log ERROR msg).

(** [await websocket.send_json(e)]: the attempt is recorded with its fate;
    a refused send raises. *)
Definition send_json {L : Type} (websocket : WebSocket) (e : event)
  : M L unit :=
  w <- get_world ;;
  let fate := ws_link websocket (List.length (sent w)) in
  modify_world (push_sent e fate) ;;
  may_raise fate.

(** [list.remove]: the first occurrence goes. *)
Fixpoint remove_first (x : nat) (l : list nat) : list nat :=
  match l with
  | [] => []
  | y :: rest => if Nat.eqb x y then rest else y :: remove_first x rest
  end.

(** [x in l] *)
Definition py_in (x : nat) (l : list nat) : bool := existsb (Nat.eqb x) l.

(** [str(x)] of an optional string and of an optional list of strings, as
    the f-strings of the handler print them. *)
Definition str_optional (x : option string) : string :=
  match x with
  | None => "None"
  | Some s => s
  end.

Definition repr_list (l : list string) : string :=
  "[" ++ String.concat ", " (map (fun s => "'" ++ s ++ "'") l) ++ "]".

Definition str_optional_list (x : option (list string)) : string :=
  match x with
  | None => "None"
  | Some l => repr_list l
  end.

(** [d[key]] on the request dictionary. *)
Definition getitem {L A : Type} (key : string) (v : option A) : M L A :=
  match v with
  | Some a => ret a
  | None => raise (Exception "KeyError" ("'" ++ key ++ "'"))
  end.

Section Backend.

Context {JD : JsonDecoder}.

(** ** Result parser *)

(** [open(file, 'r')], giving the lines the loop will read. *)
Definition open_text {L : Type} (file : DirEntry) : M L (list string) :=
  match entry_node file with
  | TextFile lines => ret lines
  | NotReadable e => raise e
  end.

Definition loads {L : Type} (line : string) : M L json :=
  lift_result (json_loads line).

Definition empty_results : ScanResult.t :=
  ScanResult.mk [] [] None None.

(** [GarakRunner.parse_results]; the local variable is [results]. *)
Definition parse_results {L : Type} (output_dir : Dir) (scan_id : string)
  : M L ScanResult.t :=
  call empty_results
    (for_each (glob output_dir "report" ".jsonl") (fun file =>
       try_except
         (f <- open_text file ;;
          for_each f (fun line =>
            if PyStr.truthy (PyStr.strip line) then
              data <- loads line ;;
              modify_local (ScanResult.append_detail data)
            else ret tt))
         (fun e =>
            logger_error
              ("Error parsing " ++ entry_path output_dir file ++ ": "
                 ++ str_exn e))) ;;
     let html_files := glob output_dir "report" ".html" in
     match html_files with
     | first :: _ =>
         modify_local
           (ScanResult.set_report (entry_name first)
              ("/api/scans/" ++ scan_id ++ "/report"))
     | [] => ret tt
     end ;;
     get_local).

(** ** Scan job runner *)

Definition DATA_DIR : string := "data".

(** The closure [run_garak] of [run_scan], run by the executor. *)
Definition run_garak {L : Type} (env : Env) (args : list string) : M L bool :=
  try_except
    (may_raise_any (engine_raises (cli_main env args)) ;; ret true)
    (fun e => logger_error ("Garak scan error: " ++ str_exn e) ;; ret false).

Definition probe_args (probes : list string) : list string :=
  flat_map (fun probe => ["--probes"; normalize_plugin_name probe "probes"])
           probes.

Definition detector_args (detectors : option (list string)) : list string :=
  match detectors with
  | None | Some [] => []
  | Some ds =>
      flat_map
        (fun detector =>
           ["--detectors"; normalize_plugin_name detector "detectors"]) ds
  end.

Definition garak_args (env : Env) (model_name : string)
  (probes : list string) (detectors : option (list string))
  (output_dir : string) : list string :=
  let report_prefix := cwd env ++ "/" ++ output_dir ++ "/report" in
  (["--model_type"; "ollama"; "--model_name"; model_name]
     ++ probe_args probes ++ detector_args detectors
     ++ ["--report_prefix"; report_prefix])%list.

(** [GarakRunner.run_scan]; the local variable is [results]. *)
Definition run_scan {L : Type} (env : Env) (model_name : string)
  (probes : list string) (detectors : option (list string))
  (websocket : WebSocket) (scan_id : string) : M L (option ScanResult.t) :=
  call None
    (try_except
       (send_json websocket
          (Status ("Starting scan on model: " ++ model_name) 0) ;;
        may_raise (import_garak env) ;;
        let output_dir := DATA_DIR ++ "/" ++ scan_id in
        may_raise (mkdir env output_dir) ;;
        let args := garak_args env model_name probes detectors output_dir in
        send_json websocket (Status "Initializing Garak..." 10) ;;
        send_json websocket (Status "Running scan..." 20) ;;
        success <- run_garak env args ;;
        if success then
          send_json websocket (Status "Scan completed successfully!" 100) ;;
          results <- parse_results
                       {| dir_path := output_dir;
                          dir_entries := engine_artifacts (cli_main env args) |}
                       scan_id ;;
          modify_local (fun _ => Some results) ;;
          send_json websocket (Complete scan_id results)
        else
          send_json websocket (Error "Scan failed. Check logs for details."))
       (fun e =>
          logger_error ("Error running scan: " ++ str_exn e) ;;
          send_json websocket (Error ("Scan error: " ++ str_exn e))) ;;
     get_local).

(** ** Scan record store *)

(** [load_scans]: [open] and [json.load] under a bare [except]; whatever
    [json.load] decodes is returned as it is. *)
Definition load_scans {L : Type} : M L StoreValue :=
  try_except_all
    (w <- get_world ;;
     match scans_file w with
     | Absent =>
         raise (Exception "FileNotFoundError" "No such file or directory")
     | File false _ _ =>
         raise (Exception "PermissionError" "Permission denied")
     | File true _ (Undecodable e) => raise e
     | File true _ (Holds v) => ret (Other v)
     | File true _ (Records scans) => ret (RecordList scans)
     end)
    (ret (RecordList [])).

Definition content_of (scans : StoreValue) : Content :=
  match scans with
  | RecordList l => Records l
  | Other v => Holds v
  end.

(** [open(SCANS_FILE, 'w')] followed by [json.dump]: a file that may not be
    written raises and stays as it is; a file that may is replaced and
    keeps its permissions; a missing file is made in the data directory,
    which line 22 has made. *)
Definition dump_scans {L : Type} (scans : StoreValue) : M L unit :=
  w <- get_world ;;
  match scans_file w with
  | Absent => modify_world (put_scans_file (File true true (content_of scans)))
  | File _ false _ => raise (Exception "PermissionError" "Permission denied")
  | File readable true _ =>
      modify_world (put_scans_file (File readable true (content_of scans)))
  end.

(** [scans.append(scan)] on what [load_scans] returned. *)
Definition list_append {L : Type} (scans : StoreValue) (scan : ScanRecord.t)
  : M L StoreValue :=
  match scans with
  | RecordList l => ret (RecordList (l ++ [scan])%list)
  | Other v => raise (no_attribute (type_name v) "append")
  end.

(** [save_scan] *)
Definition save_scan {L : Type} (scan : ScanRecord.t) : M L unit :=
  call tt
    (scans <- load_scans ;;
     scans <- list_append scans scan ;;
     dump_scans scans).

(** What [for scan in v: ... scan["id"] ...] raises on a value that is not
    a list: [None] when the loop body never runs, as on an empty
    dictionary or an empty string. A dictionary is iterated over its keys
    and a string over its characters, which cannot be indexed by ["id"];
    the message is the one of Python 3.11 and later. *)
Definition first_item_error (v : NotList) : option exn :=
  match v with
  | PyDict [] | PyText EmptyString => None
  | PyDict (_ :: _) | PyText (String _ _) =>
      Some (Exception "TypeError" "string indices must be integers, not 'str'")
  | PyNone | PyBool _ | PyNumber _ =>
      Some (Exception "TypeError"
              ("'" ++ type_name v ++ "' object is not iterable"))
  end.

(** The update loop of [websocket_scan]: the first record with the id is
    completed, then [break]. *)
Fixpoint complete_scan {L : Type} (scan_id : string)
  (scan_results : option ScanResult.t) (scans : list ScanRecord.t)
  : M L (list ScanRecord.t) :=
  match scans with
  | [] => ret []
  | scan :: rest =>
      if String.eqb (ScanRecord.id scan) scan_id then
        let scan := ScanRecord.set_status "completed" scan in
        match scan_results with
        | Some res =>
            logger_info
              ("Saved results for scan " ++ scan_id ++ ": "
                 ++ str_optional (ScanResult.report_path res)) ;;
            ret (ScanRecord.set_results res scan :: rest)
        | None => ret (scan :: rest)
        end
      else
        rest' <- complete_scan scan_id scan_results rest ;;
        ret (scan :: rest')
  end.

(** The update loop on whatever [load_scans] returned. *)
Definition update_scans {L : Type} (scan_id : string)
  (scan_results : option ScanResult.t) (scans : StoreValue)
  : M L StoreValue :=
  match scans with
  | RecordList l =>
      l' <- complete_scan scan_id scan_results l ;;
      ret (RecordList l')
  | Other v =>
      may_raise (first_item_error v) ;;
      ret (Other v)
  end.

(** The update of the record once the scan is over, lines 476 to 486 of
    [websocket_scan]: load, loop, write back. *)
Definition update_record {L : Type} (scan_id : string)
  (scan_results : option ScanResult.t) : M L unit :=
  scans <- load_scans ;;
  scans <- update_scans scan_id scan_results scans ;;
  dump_scans scans.

(** ** Progress channel handler *)

(** [websocket_scan] *)
Definition websocket_scan (env : Env) (websocket : WebSocket) : M unit unit :=
  may_raise (ws_accept websocket) ;;
  modify_world
    (fun w => put_connections (active_connections w ++ [ws_id websocket])%list w) ;;
  try_finally
    (try_except
       (data <- lift_result (ws_receive_json websocket) ;;
        logger_info ("Received scan request for model: "
                       ++ str_optional (data_model_name data)) ;;
        logger_info ("Probes: " ++ str_optional_list (data_probes data)) ;;
        logger_info ("Detectors: " ++ str_optional_list (data_detectors data)) ;;
        let scan_id := uuid4 env in
        model_name <- getitem "model_name" (data_model_name data) ;;
        probes <- getitem "probes" (data_probes data) ;;
        let scan_record :=
          ScanRecord.mk scan_id (now_isoformat env) model_name probes
            (data_detectors data) (data_description data) "running" None in
        save_scan scan_record ;;
        scan_results <- run_scan env model_name probes (data_detectors data)
                          websocket scan_id ;;
        update_record scan_id scan_results)
       (fun e =>
          match e with
          | WebSocketDisconnect _ => logger_info "WebSocket disconnected"
          | Exception _ _ =>
              logger_error ("WebSocket error: " ++ str_exn e) ;;
              try_except_all
                (send_json websocket (Error (str_exn e)))
                (ret tt)
          end))
    (w <- get_world ;;
     if py_in (ws_id websocket) (active_connections w) then
       modify_world
         (fun w =>
            put_connections
              (remove_first (ws_id websocket) (active_connections w)) w)
     else ret tt).

End Backend.

(** ** Model inventory client *)

(** What [httpx] hands back for a request that got an answer: the status
    code, what [raise_for_status()] does and what [json()] gives. *)
Record Response : Type := {
  status_code : nat;
  raise_for_status : option exn;
  response_json : result exn json
}.

(** [client.get(url, timeout=...)] inside [async with httpx.AsyncClient()]:
    the response, or the exception of a request that got none. The
    time-out is in seconds. *)
Definition Httpx : Type := string -> option nat -> result exn Response.

(** [dict.get(key)] on the members of a decoded JSON object, where a later
    member replaces an earlier one of the same key. *)
Fixpoint members_get (key : string) (members : list (string * json))
  : option json :=
  match members with
  | [] => None
  | (k, v) :: rest =>
      match members_get key rest with
      | Some later => Some later
      | None => if String.eqb k key then Some v else None
      end
  end.

(** [data.get(key, default)] on whatever [json()] returned. *)
Definition json_get {L : Type} (data : json) (key : string) (default : json)
  : M L json :=
  match data with
  | JObject members =>
      match members_get key members with
      | Some v => ret v
      | None => ret default
      end
  | _ => raise (no_attribute (json_type data) "get")
  end.

Definition lift_outcome {L A : Type} (o : result exn A) : M L A :=
  lift_result o.

Module OllamaClient.

(** [OllamaClient.list_models] *)
Definition list_models {L : Type} (http : Httpx) (base_url : string)
  : M L json :=
  try_except
    (response <- lift_outcome (http (base_url ++ "/api/tags") None) ;;
     may_raise (raise_for_status response) ;;
     data <- lift_outcome (response_json response) ;;
     json_get data "models" (JArray []))
    (fun e =>
       logger_error ("Error listing Ollama models: " ++ str_exn e) ;;
       ret (JArray [])).

(** [OllamaClient.check_connection], under its bare [except]. *)
Definition check_connection {L : Type} (http : Httpx) (base_url : string)
  : M L bool :=
  try_except_all
    (response <- lift_outcome (http (base_url ++ "/api/tags") (Some 2)) ;;
     ret (Nat.eqb (status_code response) 200))
    (ret false).

End OllamaClient.

(** The address [ollama_client] is built with. *)
Definition ollama_base_url : string := "http://localhost:11434".

(** [health_check]: the values under ["api"] and ["ollama"]. *)
Definition health_check {L : Type} (http : Httpx) : M L (string * string) :=
  ollama_status <- OllamaClient.check_connection http ollama_base_url ;;
  ret ("healthy", if ollama_status then "connected" else "disconnected").

(** [list_models]: the value under ["models"]. *)
Definition list_models {L : Type} (http : Httpx) : M L json :=
  models <- OllamaClient.list_models http ollama_base_url ;;
  ret models.

(** ** Plugin catalogue *)

(** The dictionary [plugin_info] returns; a field is [None] when the key is
    missing or holds [None]. *)
Record PluginInfo : Type := {
  info_description : option string;
  info_goal : option string;
  info_tags : option (list string)
}.

Definition empty_info : PluginInfo :=
  {| info_description := None; info_goal := None; info_tags := None |}.

(** The engine's [_plugins] module: whether it can be imported, and its two
    functions. *)
Record Registry : Type := {
  import_plugins : option exn;
  enumerate_plugins : string -> result exn (list (string * bool));
  plugin_info : string -> result exn PluginInfo
}.

(** One dictionary of the listing. *)
Record PluginListing : Type := {
  listing_id : string;
  listing_name : string;
  listing_module : string;
  listing_description : string;
  listing_active_by_default : bool;
  listing_tags : list string
}.

(** [x or y] where [x] is an optional string: [x] when it is there and not
    empty. *)
Definition str_or (x : option string) (y : string) : string :=
  match x with
  | Some (String a t) => String a t
  | Some EmptyString | None => y
  end.

(** [x or []] where [x] is an optional list. *)
Definition list_or_empty (x : option (list string)) : list string :=
  match x with
  | Some l => l
  | None => []
  end.

(** The body of the loop over the plugins, under its [try]: the metadata,
    replaced by the empty dictionary when [plugin_info] raises, and the
    dictionary appended to the listing. *)
Definition plugin_entry (label : string) (registry : Registry)
  (path : string) (is_default : bool) : result exn PluginListing :=
  let info :=
    match plugin_info registry path with
    | Ok info => info
    | Raise _ => empty_info
    end in
  let description :=
    str_or (info_description info)
           (str_or (info_goal info) (label ++ ": " ++ path)) in
  Ok {| listing_id := path;
        listing_name := path;
        listing_module := path;
        listing_description := description;
        listing_active_by_default := is_default;
        listing_tags := list_or_empty (info_tags info) |}.

(** The loop over the plugins: the listing, and the records handed to the
    logger, as level name and message. *)
Fixpoint plugin_entries (label noun : string) (registry : Registry)
  (plugins : list (string * bool))
  : list PluginListing * list (string * string) :=
  match plugins with
  | [] => ([], [])
  | (path, is_default) :: rest =>
      let (listing, records) := plugin_entries label noun registry rest in
      match plugin_entry label registry path is_default with
      | Ok entry => (entry :: listing, records)
      | Raise e =>
          (listing,
           ("WARNING",
            "Could not load " ++ noun ++ " " ++ path ++ ": " ++ str_exn e)
             :: records)
      end
  end.

(** The common shape of [get_available_probes] and
    [get_available_detectors]. *)
Definition get_available (category label noun : string)
  (registry : Registry) : list PluginListing * list (string * string) :=
  let failed (e : exn) :=
    ([], [("ERROR", "Error getting " ++ category ++ ": " ++ str_exn e)]) in
  match import_plugins registry with
  | Some e => failed e
  | None =>
      match enumerate_plugins registry category with
      | Ok plugins => plugin_entries label noun registry plugins
      | Raise e => failed e
      end
  end.

(** [GarakRunner.get_available_probes] *)
Definition get_available_probes (registry : Registry)
  : list PluginListing * list (string * string) :=
  get_available "probes" "Probe" "probe" registry.

(** [GarakRunner.get_available_detectors] *)
Definition get_available_detectors (registry : Registry)
  : list PluginListing * list (string * string) :=
  get_available "detectors" "Detector" "detector" registry.

(** ** Record query endpoints *)

Definition http_exception (status : string) (detail : string) : exn :=
  Exception "HTTPException" (status ++ ": " ++ detail).


(** [next((s for s in scans if s["id"] == scan_id), None)] *)
Definition first_with_id {L : Type} (scan_id : string) (scans : StoreValue)
  : M L (option ScanRecord.t) :=
  match scans with
  | RecordList l =>
      ret (find (fun s => String.eqb (ScanRecord.id s) scan_id) l)
  | Other v =>
      may_raise (first_item_error v) ;;
      ret None
  end.

(** [get_scan] *)
Definition get_scan {L : Type} (scan_id : string) : M L ScanRecord.t :=
  scans <- load_scans ;;
  scan <- first_with_id scan_id scans ;;
  match scan with
  | Some scan => ret scan
  | None => raise (http_exception "404" "Scan not found")
  end.

(** What [FileResponse] is built with. *)
Record FileResponse : Type := {
  response_path : string;
  response_media_type : string;
  response_filename : string
}.

(** The directories on disk: the entries of the one at a path, or [None]
    when nothing is there. *)
Definition Disk : Type := string -> option (list DirEntry).

(** [get_scan_report] *)
Definition get_scan_report {L : Type} (disk : Disk) (scan_id : string)
  : M L FileResponse :=
  let scan_dir := DATA_DIR ++ "/" ++ scan_id in
  match disk scan_dir with
  | None => raise (http_exception "404" "Scan directory not found")
  | Some entries =>
      let d := {| dir_path := scan_dir; dir_entries := entries |} in
      match glob d "report" ".html" with
      | [] => raise (http_exception "404" "Report not found")
      | first :: _ =>
          ret {| response_path := entry_path d first;
                 response_media_type := "text/html";
                 response_filename := "scan_" ++ scan_id ++ "_report.html" |}
      end
  end.

(** ** A JSON decoder to run the model on

    A recursive-descent decoder for JSON text of one-byte characters;
    [\u] escapes and the constants [NaN] and [Infinity] are not decoded
    and count as an error. The statements below hold for every decoder;
    this one serves to evaluate the model on concrete report lines. *)

Module Decoder.

Definition decode_error : exn := Exception "JSONDecodeError" "Expecting value".

Definition is_ws (c : ascii) : bool :=
  Ascii.eqb c " " || Ascii.eqb c "009" || Ascii.eqb c "010" || Ascii.eqb c "013".

Definition is_digit (c : ascii) : bool :=
  Nat.leb 48 (nat_of_ascii c) && Nat.leb (nat_of_ascii c) 57.

Fixpoint skip_ws (s : string) : string :=
  match s with
  | String c t => if is_ws c then skip_ws t else s
  | EmptyString => s
  end.

Fixpoint digits (s : string) : string * string :=
  match s with
  | String c t =>
      if is_digit c then let (d, r) := digits t in (String c d, r)
      else (EmptyString, s)
  | EmptyString => (EmptyString, s)
  end.

Definition some_digits (s : string) : option (string * string) :=
  match digits s with
  | (EmptyString, _) => None
  | (d, r) => Some (d, r)
  end.

Definition int_part (s : string) : option (string * string) :=
  match s with
  | String "0" t => Some ("0", t)
  | _ => some_digits s
  end.

Definition frac_part (s : string) : option (string * string) :=
  match s with
  | String "." t =>
      match some_digits t with
      | Some (d, r) => Some (String "." d, r)
      | None => None
      end
  | _ => Some (EmptyString, s)
  end.

Definition exp_digits (mark : string) (s : string) : option (string * string) :=
  match some_digits s with
  | Some (d, r) => Some (mark ++ d, r)
  | None => None
  end.

Definition exp_part (s : string) : option (string * string) :=
  match s with
  | String "e" (String "+" t) => exp_digits "e+" t
  | String "e" (String "-" t) => exp_digits "e-" t
  | String "e" t => exp_digits "e" t
  | String "E" (String "+" t) => exp_digits "E+" t
  | String "E" (String "-" t) => exp_digits "E-" t
  | String "E" t => exp_digits "E" t
  | _ => Some (EmptyString, s)
  end.

Definition unsigned_number (s : string) : option (string * string) :=
  match int_part s with
  | Some (i, r1) =>
      match frac_part r1 with
      | Some (f, r2) =>
          match exp_part r2 with
          | Some (e, r3) => Some (i ++ f ++ e, r3)
          | None => None
          end
      | None => None
      end
  | None => None
  end.

Definition number (s : string) : option (string * string) :=
  match s with
  | String "-" t =>
      match unsigned_number t with
      | Some (n, r) => Some (String "-" n, r)
      | None => None
      end
  | _ => unsigned_number s
  end.

Definition escape (c : ascii) : option ascii :=
  if Ascii.eqb c "034" then Some "034"%char
  else if Ascii.eqb c "\" then Some "\"%char
  else if Ascii.eqb c "/" then Some "/"%char
  else if Ascii.eqb c "b" then Some "008"%char
  else if Ascii.eqb c "f" then Some "012"%char
  else if Ascii.eqb c "n" then Some "010"%char
  else if Ascii.eqb c "r" then Some "013"%char
  else if Ascii.eqb c "t" then Some "009"%char
  else None.

(** The characters after an opening quote, up to the closing one. *)
Fixpoint string_body (s : string) : option (string * string) :=
  match s with
  | EmptyString => None
  | String c t =>
      if Ascii.eqb c "034" then Some (EmptyString, t)
      else if Ascii.eqb c "\" then
        match t with
        | String e t' =>
            match escape e, string_body t' with
            | Some x, Some (b, r) => Some (String x b, r)
            | _, _ => None
            end
        | EmptyString => None
        end
      else if Nat.ltb (nat_of_ascii c) 32 then None
      else
        match string_body t with
        | Some (b, r) => Some (String c b, r)
        | None => None
        end
  end.

Section Composite.

Variable value : string -> option (json * string).

(** The items after ["["], the first one known to be there. *)
Fixpoint items (fuel : nat) (s : string) : option (list json * string) :=
  match fuel with
  | O => None
  | S fuel' =>
      match value s with
      | Some (v, r) =>
          match skip_ws r with
          | String "," t =>
              match items fuel' t with
              | Some (vs, r') => Some (v :: vs, r')
              | None => None
              end
          | String "]" t => Some ([v], t)
          | _ => None
          end
      | None => None
      end
  end.

(** The members after ["{"], the first one known to be there. *)
Fixpoint members (fuel : nat) (s : string)
  : option (list (string * json) * string) :=
  match fuel with
  | O => None
  | S fuel' =>
      match skip_ws s with
      | String q t =>
          if Ascii.eqb q "034" then
            match string_body t with
            | Some (k, r) =>
                match skip_ws r with
                | String ":" r1 =>
                    match value r1 with
                    | Some (v, r2) =>
                        match skip_ws r2 with
                        | String "," t2 =>
                            match members fuel' t2 with
                            | Some (ms, r') => Some ((k, v) :: ms, r')
                            | None => None
                            end
                        | String "}" t2 => Some ([(k, v)], t2)
                        | _ => None
                        end
                    | None => None
                    end
                | _ => None
                end
            | None => None
            end
          else None
      | EmptyString => None
      end
  end.

End Composite.

Definition literal (word : string) (v : json) (s : string)
  : option (json * string) :=
  if PyStr.startswith s word then Some (v, PyStr.drop (String.length word) s)
  else None.

Fixpoint value (fuel : nat) (s : string) : option (json * string) :=
  match fuel with
  | O => None
  | S fuel' =>
      match skip_ws s with
      | EmptyString => None
      | String c t =>
          if Ascii.eqb c "{" then
            match skip_ws t with
            | String "}" r => Some (JObject [], r)
            | _ =>
                match members (value fuel') fuel' t with
                | Some (ms, r) => Some (JObject ms, r)
                | None => None
                end
            end
          else if Ascii.eqb c "[" then
            match skip_ws t with
            | String "]" r => Some (JArray [], r)
            | _ =>
                match items (value fuel') fuel' t with
                | Some (vs, r) => Some (JArray vs, r)
                | None => None
                end
            end
          else if Ascii.eqb c "034" then
            match string_body t with
            | Some (b, r) => Some (JString b, r)
            | None => None
            end
          else if Ascii.eqb c "t" then literal "true" (JBool true) (String c t)
          else if Ascii.eqb c "f" then literal "false" (JBool false) (String c t)
          else if Ascii.eqb c "n" then literal "null" JNull (String c t)
          else
            match number (String c t) with
            | Some (n, r) => Some (JNumber n, r)
            | None => None
            end
      end
  end.

(** The whole text must be one value between optional white space. *)
Definition decode (s : string) : result exn json :=
  match value (S (String.length s)) s with
  | Some (v, r) =>
      match skip_ws r with
      | EmptyString => Ok v
      | String _ _ => Raise decode_error
      end
  | None => Raise decode_error
  end.

End Decoder.

Definition json_decoder : JsonDecoder := Decoder.decode.

(** The double quote, to write JSON text with. *)
Definition dq : string := String "034" EmptyString.

(** ** Reference functions

    What the statements below compare the code with. *)

Section Reference.

Context {JD : JsonDecoder}.

(** The records of the non-blank lines up to the first line that does not
    decode, and the exception of that line if there is one. *)
Fixpoint decoded_prefix (lines : list string) : list json * option exn :=
  match lines with
  | [] => ([], None)
  | line :: rest =>
      if PyStr.truthy (PyStr.strip line) then
        match json_loads line with
        | Ok data =>
            let (ds, e) := decoded_prefix rest in (data :: ds, e)
        | Raise e => ([], Some e)
        end
      else decoded_prefix rest
  end.

(** The detail records one report file contributes. *)
Definition file_details (file : DirEntry) : list json :=
  match entry_node file with
  | TextFile lines => fst (decoded_prefix lines)
  | NotReadable _ => []
  end.

(** The exception that ends the reading of a report file, if any. *)
Definition file_failure (file : DirEntry) : option exn :=
  match entry_node file with
  | TextFile lines => snd (decoded_prefix lines)
  | NotReadable e => Some e
  end.

(** The log line [parse_results] writes for a report file, if any. *)
Definition file_log (output_dir : Dir) (file : DirEntry)
  : list (level * string) :=
  match file_failure file with
  | Some e =>
      [(ERROR,
        "Error parsing " ++ entry_path output_dir file ++ ": " ++ str_exn e)]
  | None => []
  end.

End Reference.

Definition log_all (msgs : list (level * string)) (w : World) : World :=
  {| sent := sent w;
     scans_file := scans_file w;
     active_connections := active_connections w;
     log := (log w ++ msgs)%list |}.

Definition add_details (ds : list json) (r : ScanResult.t) : ScanResult.t :=
  ScanResult.mk (ScanResult.summary r) (ScanResult.details r ++ ds)%list
                (ScanResult.report_html r) (ScanResult.report_path r).

(** The report fields, from the rendered reports found. *)
Definition report_fields (output_dir : Dir) (scan_id : string)
  (r : ScanResult.t) : ScanResult.t :=
  match glob output_dir "report" ".html" with
  | first :: _ =>
      ScanResult.set_report (entry_name first)
        ("/api/scans/" ++ scan_id ++ "/report") r
  | [] => r
  end.

(** What [parse_results] returns, as a function of the directory. *)
Definition parsed {JD : JsonDecoder} (output_dir : Dir) (scan_id : string)
  : ScanResult.t :=
  report_fields output_dir scan_id
    (add_details (flat_map file_details (glob output_dir "report" ".jsonl"))
                 empty_results).

(** The directory [run_scan] hands to [parse_results]. *)
Definition scan_output (env : Env) (model_name : string)
  (probes : list string) (detectors : option (list string))
  (scan_id : string) : Dir :=
  {| dir_path := DATA_DIR ++ "/" ++ scan_id;
     dir_entries :=
       engine_artifacts
         (cli_main env
            (garak_args env model_name probes detectors
                        (DATA_DIR ++ "/" ++ scan_id))) |}.

(** Nothing but the channel stands in the way of a scan: the engine can be
    imported, the scan directory can be made, and the engine returns. *)
Definition run_succeeds (env : Env) (model_name : string)
  (probes : list string) (detectors : option (list string))
  (scan_id : string) : bool :=
  match import_garak env, mkdir env (DATA_DIR ++ "/" ++ scan_id),
        engine_raises
          (cli_main env
             (garak_args env model_name probes detectors
                         (DATA_DIR ++ "/" ++ scan_id))) with
  | None, None, None => true
  | _, _, _ => false
  end.

(** What [load_scans] returns for a state of [scans.json]. *)
Definition loaded (w : World) : StoreValue :=
  match scans_file w with
  | File true _ (Holds v) => Other v
  | File true _ (Records scans) => RecordList scans
  | _ => RecordList []
  end.

(** The records [load_scans] reads from [scans.json]: none when the file
    is missing, cannot be read, or holds no list of records. *)
Definition stored (w : World) : list ScanRecord.t :=
  match scans_file w with
  | File true _ (Records scans) => scans
  | _ => []
  end.

(** [scans.json] can be read and written and holds a list of records, or
    holds no JSON, or is missing: [save_scan] will get through. *)
Definition store_usable (w : World) : bool :=
  match scans_file w with
  | Absent => true
  | File readable writable content =>
      readable && writable
      && match content with Holds _ => false | _ => true end
  end.

(** The engine, called as [run_scan] calls it, ends outside the
    [Exception] hierarchy, as with [SystemExit]. *)
Definition engine_exits (env : Env) (model_name : string)
  (probes : list string) (detectors : option (list string))
  (scan_id : string) : bool :=
  match engine_raises
          (cli_main env
             (garak_args env model_name probes detectors
                         (DATA_DIR ++ "/" ++ scan_id))) with
  | Some (BaseException _ _) => true
  | _ => false
  end.

(** The record [websocket_scan] saves on acceptance, and the record the
    update loop turns it into. *)
Definition running_record (env : Env) (model_name : string)
  (probes : list string) (data : RequestData) : ScanRecord.t :=
  ScanRecord.mk (uuid4 env) (now_isoformat env) model_name probes
    (data_detectors data) (data_description data) "running" None.


(** No stored record has the id. *)
Definition fresh_id (scan_id : string) (scans : list ScanRecord.t) : bool :=
  forallb (fun scan => negb (String.eqb (ScanRecord.id scan) scan_id)) scans.

(** The records as the update loop of [websocket_scan] leaves them. *)
Fixpoint mark_completed (scan_id : string)
  (scan_results : option ScanResult.t) (scans : list ScanRecord.t)
  : list ScanRecord.t :=
  match scans with
  | [] => []
  | scan :: rest =>
      if String.eqb (ScanRecord.id scan) scan_id then
        let scan := ScanRecord.set_status "completed" scan in
        match scan_results with
        | Some res => ScanRecord.set_results res scan :: rest
        | None => scan :: rest
        end
      else scan :: mark_completed scan_id scan_results rest
  end.

(** The log line of the update loop, if it writes one. *)
Fixpoint completion_log (scan_id : string)
  (scan_results : option ScanResult.t) (scans : list ScanRecord.t)
  : list (level * string) :=
  match scans with
  | [] => []
  | scan :: rest =>
      if String.eqb (ScanRecord.id scan) scan_id then
        match scan_results with
        | Some res =>
            [(INFO, "Saved results for scan " ++ scan_id ++ ": "
                      ++ str_optional (ScanResult.report_path res))]
        | None => []
        end
      else completion_log scan_id scan_results rest
  end.

(** The terminal events among the events the client received. *)
Definition terminal_events (w : World) : list event :=
  filter is_terminal (delivered w).

(** ** Reference functions for the further properties *)

(** The test [parse_results] puts a line to before decoding it. *)
Definition nonblank (line : string) : bool := PyStr.truthy (PyStr.strip line).

(** A directory entry with the blank lines of its text removed. *)
Definition without_blank_lines (e : DirEntry) : DirEntry :=
  match entry_node e with
  | TextFile lines =>
      {| entry_name := entry_name e;
         entry_node := TextFile (filter nonblank lines) |}
  | NotReadable _ => e
  end.

(** The entry is named like a report of either kind. *)
Definition is_report (e : DirEntry) : bool :=
  fnmatch_star "report" ".jsonl" (entry_name e)
  || fnmatch_star "report" ".html" (entry_name e).

Definition with_entries (f : list DirEntry -> list DirEntry) (d : Dir) : Dir :=
  {| dir_path := dir_path d; dir_entries := f (dir_entries d) |}.

(** The lines of the line-delimited reports of a directory, file after
    file. *)
Definition report_lines (d : Dir) : list string :=
  flat_map (fun file =>
              match entry_node file with
              | TextFile lines => lines
              | NotReadable _ => []
              end)
           (glob d "report" ".jsonl").

(** The progress values of the status events among some events. *)
Fixpoint progress_values (events : list event) : list nat :=
  match events with
  | [] => []
  | Status _ p :: rest => p :: progress_values rest
  | _ :: rest => progress_values rest
  end.

(** One dictionary of the listing stands for one plugin of the registry. *)
Definition listed (plugin : string * bool) (entry : PluginListing) : Prop :=
  listing_id entry = fst plugin
  /\ listing_name entry = fst plugin
  /\ listing_module entry = fst plugin
  /\ listing_active_by_default entry = snd plugin.

(** The description and the tags of a dictionary of the listing, from the
    metadata of its plugin: the description, else the goal, else the label
    and the identifier; an empty text counts as a missing one. *)
Definition described (label : string) (registry : Registry)
  (entry : PluginListing) : Prop :=
  listing_description entry <> ""
  /\ (forall e,
         plugin_info registry (listing_id entry) = Raise e ->
         listing_description entry = label ++ ": " ++ listing_id entry
         /\ listing_tags entry = [])
  /\ (forall info,
         plugin_info registry (listing_id entry) = Ok info ->
         listing_tags entry = list_or_empty (info_tags info)
         /\ (forall d, info_description info = Some d -> d <> "" ->
                       listing_description entry = d)
         /\ (info_description info = None \/ info_description info = Some "" ->
             (forall g, info_goal info = Some g -> g <> "" ->
                        listing_description entry = g)
             /\ (info_goal info = None \/ info_goal info = Some "" ->
                 listing_description entry
                 = label ++ ": " ++ listing_id entry))).

(** ** Sample inputs *)

Definition idle_world : World :=
  {| sent := []; scans_file := Scans []; active_connections := []; log := [] |}.

(** A report line of the engine, and a line that is not JSON; both end
    with the line feed the file iteration keeps. *)
Definition good_line : string :=
  "{" ++ dq ++ "entry_type" ++ dq ++ ": " ++ dq ++ "attempt" ++ dq ++ "}"
      ++ String "010" EmptyString.

Definition bad_line : string := "Traceback (most recent call last):"
                                  ++ String "010" EmptyString.

Definition good_record : json := JObject [("entry_type", JString "attempt")].

Definition report_jsonl (lines : list string) : DirEntry :=
  {| entry_name := "report.jsonl"; entry_node := TextFile lines |}.

Definition report_html_file : DirEntry :=
  {| entry_name := "report.html"; entry_node := TextFile ["<html></html>"] |}.

Definition scan_dir (entries : list DirEntry) : Dir :=
  {| dir_path := "data/scan-1"; dir_entries := entries |}.

Definition sample_request : RequestData :=
  {| data_model_name := Some "llama3";
     data_probes := Some ["dan.DAN_Jailbreak"];
     data_detectors := None;
     data_description := None |}.

Definition engine_success : EngineRun :=
  {| engine_raises := None;
     engine_artifacts :=
       [report_jsonl [good_line; good_line]; report_html_file] |}.

Definition engine_failure : EngineRun :=
  {| engine_raises := Some (Exc (Exception "ValueError" "Unknown probes"));
     engine_artifacts := [] |}.

(** The engine leaves through [sys.exit]. *)
Definition engine_exit : EngineRun :=
  {| engine_raises := Some (BaseException "SystemExit" "2");
     engine_artifacts := [] |}.

Definition sample_env (engine : EngineRun) : Env :=
  {| uuid4 := "scan-1";
     now_isoformat := "2025-01-01T12:00:00";
     cwd := "/srv/backend";
     import_garak := None;
     mkdir := fun _ => None;
     cli_main := fun _ => engine |}.

Definition disconnected : exn := WebSocketDisconnect "1006".

(** A client that takes the first [k] messages and is gone after that. *)
Definition client_leaving_after (k : nat) : WebSocket :=
  {| ws_id := 1;
     ws_accept := None;
     ws_receive_json := Ok sample_request;
     ws_link := fun n => if Nat.ltb n k then None else Some disconnected |}.

(** A client that stays to the end. *)
Definition client_staying : WebSocket :=
  {| ws_id := 1;
     ws_accept := None;
     ws_receive_json := Ok sample_request;
     ws_link := fun _ => None |}.

(** A client that is gone before it has sent its request. *)
Definition client_silent : WebSocket :=
  {| ws_id := 1;
     ws_accept := None;
     ws_receive_json := Raise disconnected;
     ws_link := fun _ => Some disconnected |}.

(** A client whose sends fare as [link] says. *)
Definition client_with_link (link : nat -> option exn) : WebSocket :=
  {| ws_id := 1;
     ws_accept := None;
     ws_receive_json := Ok sample_request;
     ws_link := link |}.

(** Only the fifth message, the [complete] event of a scan that went well,
    is refused. *)
Definition fifth_refused (n : nat) : option exn :=
  if Nat.eqb n 4
  then Some (Exception "RuntimeError" "Unexpected ASGI message")
  else None.

(** A request that names no model. *)
Definition request_without_model : RequestData :=
  {| data_model_name := None;
     data_probes := Some ["dan.DAN_Jailbreak"];
     data_detectors := None;
     data_description := None |}.

Definition client_without_model : WebSocket :=
  {| ws_id := 1;
     ws_accept := None;
     ws_receive_json := Ok request_without_model;
     ws_link := fun _ => None |}.

Definition sample_running : ScanRecord.t :=
  running_record (sample_env engine_success) "llama3" ["dan.DAN_Jailbreak"]
                 sample_request.

(** A store with two scans, the first completed and the second running. *)
Definition earlier_scan : ScanRecord.t :=
  ScanRecord.mk "scan-0" "2024-12-31T09:00:00" "llama3" ["dan"] None None
                "completed" None.

Definition stored_world : World :=
  put_scans_file (Scans [earlier_scan; sample_running]) idle_world.

(** [scans.json] holding the object [{"scans": []}] instead of a list, a
    store that may be read but not written, and one that may be written but
    not read. *)
Definition wrapped_world : World :=
  put_scans_file (File true true (Holds (PyDict [("scans", JArray [])])))
                 idle_world.

Definition read_only_world : World :=
  put_scans_file (File true false (Records [earlier_scan])) idle_world.

Definition write_only_world : World :=
  put_scans_file (File false true (Records [earlier_scan])) idle_world.

(** The server of the models answering with one model, answering with an
    error status, and not answering. *)
Definition tags_body : json :=
  JObject [("models", JArray [JObject [("name", JString "llama3")]])].

Definition ollama_up : Httpx :=
  fun _ _ =>
    Ok {| status_code := 200;
          raise_for_status := None;
          response_json := Ok tags_body |}.

Definition ollama_failing : Httpx :=
  fun _ _ =>
    Ok {| status_code := 500;
          raise_for_status :=
            Some (Exception "HTTPStatusError" "Server error '500'");
          response_json := Raise (Exception "JSONDecodeError" "Expecting value") |}.

Definition ollama_down : Httpx :=
  fun _ _ => Raise (Exception "ConnectError" "All connection attempts failed").

(** A registry with two probes, the metadata of the second missing. *)
Definition sample_registry : Registry :=
  {| import_plugins := None;
     enumerate_plugins :=
       fun _ => Ok [("probes.dan.Dan_11_0", true);
                    ("probes.test.Blank", false)];
     plugin_info :=
       fun path =>
         if String.eqb path "probes.dan.Dan_11_0"
         then Ok {| info_description := Some "";
                    info_goal := Some "disregard the system prompt";
                    info_tags := Some ["owasp:llm01"] |}
         else Raise (Exception "ValueError" "no such plugin") |}.

(** * Properties *)

(** ** Strings *)

Lemma startswith_app (p r : string) : PyStr.startswith (p ++ r) p = true.
Proof.
  unfold PyStr.startswith. induction p as [|a p IH]; simpl.
  - now destruct r.
  - destruct (ascii_dec a a) as [_|N]; [exact IH | now elim N].
Qed.

Lemma drop_app (p r : string) : PyStr.drop (String.length p) (p ++ r) = r.
Proof. induction p as [|a p IH]; simpl; [now destruct r | exact IH]. Qed.

Lemma startswith_split (s p : string) :
  PyStr.startswith s p = true -> s = p ++ PyStr.drop (String.length p) s.
Proof.
  unfold PyStr.startswith. revert s.
  induction p as [|a p IH]; intros [|b s] H; simpl in *;
    try reflexivity; try discriminate.
  destruct (ascii_dec a b) as [->|_]; [|discriminate].
  f_equal. now apply IH.
Qed.

Lemma length_drop (n : nat) (s : string) :
  String.length (PyStr.drop n s) = String.length s - n.
Proof. revert s. induction n as [|n IH]; intros [|a s]; simpl; auto. Qed.

Lemma length_append (s t : string) :
  String.length (s ++ t) = String.length s + String.length t.
Proof. induction s as [|a s IH]; simpl; auto. Qed.

(** Dropping a prefix that is there and is not empty shortens the name. *)
Lemma drop_prefix_shorter (s p : string) :
  PyStr.startswith s p = true -> 0 < String.length p ->
  String.length (PyStr.drop (String.length p) s) < String.length s.
Proof.
  intros H Hp. apply startswith_split in H.
  rewrite length_drop.
  assert (String.length s = String.length p
                            + String.length (PyStr.drop (String.length p) s))
    as E by (rewrite H at 1; apply length_append).
  lia.
Qed.

(** ** Identifier normaliser *)

Lemma normalize_full (name category : string) :
  PyStr.startswith name (full_prefix category) = true ->
  normalize_plugin_name name category
  = PyStr.drop (String.length (full_prefix category)) name.
Proof.
  intros H. unfold normalize_plugin_name. fold (full_prefix category).
  now rewrite H.
Qed.

Lemma normalize_short (name category : string) :
  PyStr.startswith name (full_prefix category) = false ->
  PyStr.startswith name (short_prefix category) = true ->
  normalize_plugin_name name category
  = PyStr.drop (String.length (short_prefix category)) name.
Proof.
  intros H1 H2. unfold normalize_plugin_name.
  fold (full_prefix category). fold (short_prefix category).
  now rewrite H1, H2.
Qed.

Lemma normalize_plain (name category : string) :
  has_plugin_prefix name category = false ->
  normalize_plugin_name name category = name.
Proof.
  unfold has_plugin_prefix. intros H.
  apply orb_false_iff in H as [H1 H2].
  unfold normalize_plugin_name.
  fold (full_prefix category). fold (short_prefix category).
  now rewrite H1, H2.
Qed.

Lemma prefixes_not_empty (category : string) :
  0 < String.length (full_prefix category)
  /\ 0 < String.length (short_prefix category).
Proof.
  unfold full_prefix, short_prefix. split.
  - simpl. lia.
  - rewrite length_append. simpl. lia.
Qed.

(** A name that carries a prefix loses at least one character. *)
Lemma normalize_shorter (name category : string) :
  has_plugin_prefix name category = true ->
  String.length (normalize_plugin_name name category) < String.length name.
Proof.
  unfold has_plugin_prefix. intros H.
  destruct (prefixes_not_empty category) as [Hf Hs].
  destruct (PyStr.startswith name (full_prefix category)) eqn:E1.
  - rewrite normalize_full by exact E1. now apply drop_prefix_shorter.
  - simpl in H. rewrite normalize_short by assumption.
    now apply drop_prefix_shorter.
Qed.

(** C5, as stated, fails: normalising strips one prefix only, and what
    remains of ["probes.probes.dan"] begins with the prefix again. *)
Lemma normalize_not_idempotent :
  normalize_plugin_name (normalize_plugin_name "probes.probes.dan" "probes")
                        "probes"
  <> normalize_plugin_name "probes.probes.dan" "probes".
Proof. vm_compute. discriminate. Qed.

(** C5, amended: for every name and category, normalising a second time
    changes nothing exactly when the first result carries neither the
    fully-qualified nor the category-only prefix. *)
Theorem normalize_idempotent_iff (x c : string) :
  normalize_plugin_name (normalize_plugin_name x c) c
  = normalize_plugin_name x c
  <-> has_plugin_prefix (normalize_plugin_name x c) c = false.
Proof.
  split.
  - intros H.
    destruct (has_plugin_prefix (normalize_plugin_name x c) c) eqn:E; auto.
    apply normalize_shorter in E. rewrite H in E. lia.
  - apply normalize_plain.
Qed.

(** C6: the fully-qualified prefix is stripped if present, else the
    category-only prefix if present, else the name comes back unchanged;
    for category ["probes"] the three spellings of [dan.X] all give
    [dan.X]. *)
Theorem normalize_plugin_name_spec (name category rest X : string) :
  (name = full_prefix category ++ rest ->
   normalize_plugin_name name category = rest)
  /\ (PyStr.startswith name (full_prefix category) = false ->
      name = short_prefix category ++ rest ->
      normalize_plugin_name name category = rest)
  /\ (has_plugin_prefix name category = false ->
      normalize_plugin_name name category = name)
  /\ normalize_plugin_name ("probes.dan." ++ X) "probes" = "dan." ++ X
  /\ normalize_plugin_name ("garak.probes.dan." ++ X) "probes" = "dan." ++ X
  /\ normalize_plugin_name ("dan." ++ X) "probes" = "dan." ++ X.
Proof.
  repeat split.
  - intros ->. rewrite normalize_full by apply startswith_app.
    apply drop_app.
  - intros H ->. rewrite normalize_short; auto using startswith_app.
    apply drop_app.
  - apply normalize_plain.
Qed.

Lemma normalize_plugin_name_spec_witness :
  normalize_plugin_name "garak.detectors.dan.DANJailbreak" "detectors"
  = "dan.DANJailbreak"
  /\ normalize_plugin_name "detectors.dan.DANJailbreak" "detectors"
     = "dan.DANJailbreak"
  /\ normalize_plugin_name "dan.DANJailbreak" "detectors"
     = "dan.DANJailbreak".
Proof.
  split; [|split].
  - exact (proj1 (normalize_plugin_name_spec
                    "garak.detectors.dan.DANJailbreak" "detectors"
                    "dan.DANJailbreak" "DAN_Jailbreak") eq_refl).
  - exact (proj1 (proj2 (normalize_plugin_name_spec
                           "detectors.dan.DANJailbreak" "detectors"
                           "dan.DANJailbreak" "DAN_Jailbreak"))
             eq_refl eq_refl).
  - exact (proj1 (proj2 (proj2 (normalize_plugin_name_spec
                                  "dan.DANJailbreak" "detectors"
                                  "dan.DANJailbreak" "DAN_Jailbreak")))
             eq_refl).
Defined.

(** ** Result parser *)

Lemma log_all_nil (w : World) : log_all [] w = w.
Proof. destruct w; unfold log_all; simpl. now rewrite app_nil_r. Qed.

Lemma log_all_app (a b : list (level * string)) (w : World) :
  log_all b (log_all a w) = log_all (a ++ b) w.
Proof. unfold log_all; simpl. now rewrite app_assoc. Qed.

Lemma add_details_nil (r : ScanResult.t) : add_details [] r = r.
Proof. destruct r; unfold add_details; simpl. now rewrite app_nil_r. Qed.

Lemma add_details_app (a b : list json) (r : ScanResult.t) :
  add_details b (add_details a r) = add_details (a ++ b) r.
Proof. unfold add_details; simpl. now rewrite app_assoc. Qed.

Section ParserFacts.

Context {JD : JsonDecoder}.

(** The loop over the lines of one file: it stops at the first line that
    does not decode and keeps what it has appended so far. *)
Lemma read_lines_run (lines : list string) (w : World) (r : ScanResult.t) :
  for_each lines
    (fun line =>
       if PyStr.truthy (PyStr.strip line) then
         data <- loads line ;;
         modify_local (ScanResult.append_detail data)
       else ret tt) (w, r)
  = (match snd (decoded_prefix lines) with
     | None => Ok tt
     | Some e => Raise e
     end,
     (w, add_details (fst (decoded_prefix lines)) r)).
Proof.
  revert r. induction lines as [|line rest IH]; intros r; simpl.
  - now rewrite add_details_nil.
  - unfold bind at 1.
    destruct (PyStr.truthy (PyStr.strip line)).
    + unfold bind at 1. unfold loads.
      destruct (json_loads line) as [data|e]; simpl.
      * rewrite IH. destruct (decoded_prefix rest) as [ds oe]; simpl.
        f_equal. f_equal.
        change (ScanResult.append_detail data r) with (add_details [data] r).
        now rewrite add_details_app.
      * now rewrite add_details_nil.
    + simpl. apply IH.
Qed.

(** One turn of the loop over the report files never raises. *)
Lemma read_file_run (output_dir : Dir) (file : DirEntry) (w : World)
  (r : ScanResult.t) :
  try_except
    (f <- open_text file ;;
     for_each f (fun line =>
       if PyStr.truthy (PyStr.strip line) then
         data <- loads line ;;
         modify_local (ScanResult.append_detail data)
       else ret tt))
    (fun e =>
       logger_error
         ("Error parsing " ++ entry_path output_dir file ++ ": " ++ str_exn e))
    (w, r)
  = (Ok tt, (log_all (file_log output_dir file) w,
             add_details (file_details file) r)).
Proof.
  unfold try_except, bind, open_text, file_log, file_details, file_failure.
  destruct (entry_node file) as [lines|e]; simpl.
  - rewrite read_lines_run.
    destruct (snd (decoded_prefix lines)) as [e|]; simpl.
    + reflexivity.
    + now rewrite log_all_nil.
  - now rewrite add_details_nil.
Qed.

Lemma read_files_run (output_dir : Dir) (files : list DirEntry) (w : World)
  (r : ScanResult.t) :
  for_each files (fun file =>
    try_except
      (f <- open_text file ;;
       for_each f (fun line =>
         if PyStr.truthy (PyStr.strip line) then
           data <- loads line ;;
           modify_local (ScanResult.append_detail data)
         else ret tt))
      (fun e =>
         logger_error
           ("Error parsing " ++ entry_path output_dir file ++ ": "
              ++ str_exn e)))
    (w, r)
  = (Ok tt, (log_all (flat_map (file_log output_dir) files) w,
             add_details (flat_map file_details files) r)).
Proof.
  revert w r. induction files as [|file rest IH]; intros w r;
    cbn [for_each flat_map].
  - unfold ret. now rewrite log_all_nil, add_details_nil.
  - unfold bind at 1. rewrite read_file_run. rewrite IH.
    now rewrite log_all_app, add_details_app.
Qed.

(** [parse_results] in closed form: it always returns, touches nothing but
    the log, and leaves the caller's variables alone. *)
Lemma parse_results_run {L : Type} (output_dir : Dir) (scan_id : string)
  (w : World) (l : L) :
  parse_results output_dir scan_id (w, l)
  = (Ok (parsed output_dir scan_id),
     (log_all (flat_map (file_log output_dir)
                        (glob output_dir "report" ".jsonl")) w, l)).
Proof.
  unfold parse_results, call, parsed, report_fields. cbn [fst snd].
  unfold bind at 1. rewrite read_files_run.
  destruct (glob output_dir "report" ".html") as [|first others]; reflexivity.
Qed.

End ParserFacts.

Section ParserClaims.

Context {JD : JsonDecoder}.

(** Lines after a line that does not decode play no part. *)
Lemma decoded_prefix_stops (pre post : list string) (bad : string) (e : exn) :
  snd (decoded_prefix pre) = None ->
  PyStr.truthy (PyStr.strip bad) = true ->
  json_loads bad = Raise e ->
  decoded_prefix (pre ++ bad :: post) = (fst (decoded_prefix pre), Some e).
Proof.
  intros Hpre Hb He. induction pre as [|line pre IH]; simpl in *.
  - now rewrite Hb, He.
  - destruct (PyStr.truthy (PyStr.strip line)); [|now apply IH].
    destruct (json_loads line) as [data|e']; [|discriminate].
    destruct (decoded_prefix pre) as [ds oe]; simpl in *.
    now rewrite IH.
Qed.

(** C4, amended: [parse_results] raises no error; a report line that fails
    to parse is logged and ends the reading of its file only: the records
    decoded before it are kept, the later lines of that file are skipped,
    and the other report files are still read. With one well-formed line
    followed by one malformed line, the result has exactly one detail
    record. *)
Theorem parse_results_tolerance {L : Type} (output_dir : Dir)
  (scan_id : string) (w : World) (l : L) :
  exists r : ScanResult.t,
    parse_results output_dir scan_id (w, l)
    = (Ok r,
       (log_all (flat_map (file_log output_dir)
                          (glob output_dir "report" ".jsonl")) w, l))
    /\ ScanResult.details r
       = flat_map file_details (glob output_dir "report" ".jsonl")
    /\ (forall name pre post bad e,
           snd (decoded_prefix pre) = None ->
           PyStr.truthy (PyStr.strip bad) = true ->
           json_loads bad = Raise e ->
           let file := {| entry_name := name;
                          entry_node := TextFile (pre ++ bad :: post) |} in
           file_details file = fst (decoded_prefix pre)
           /\ file_log output_dir file
              = [(ERROR, "Error parsing " ++ entry_path output_dir file
                           ++ ": " ++ str_exn e)])
    /\ (forall good bad v e,
           dir_entries output_dir = [report_jsonl [good; bad]] ->
           PyStr.truthy (PyStr.strip good) = true ->
           PyStr.truthy (PyStr.strip bad) = true ->
           json_loads good = Ok v ->
           json_loads bad = Raise e ->
           ScanResult.details r = [v]).
Proof.
  rewrite parse_results_run. unfold parsed. eexists. split; [reflexivity|].
  assert (forall r0 : ScanResult.t,
             ScanResult.details (report_fields output_dir scan_id r0)
             = ScanResult.details r0) as Hd.
  { intros r0. unfold report_fields.
    now destruct (glob output_dir "report" ".html"). }
  split; [|split].
  - now rewrite Hd.
  - cbv zeta. intros name pre post bad e Hpre Hb He.
    unfold file_details, file_log, file_failure. simpl.
    now rewrite (decoded_prefix_stops pre post bad e Hpre Hb He).
  - intros good bad v e Hdir Hg Hb Hv He.
    rewrite Hd. unfold glob. rewrite Hdir. simpl.
    unfold file_details. simpl. now rewrite Hg, Hv, Hb, He.
Qed.

(** C8: [parse_results] returns a result for every output directory; when a
    rendered report is found, the report path is
    [/api/scans/{scanId}/report] and the report filename is the name of the
    first file found; when nothing is found, the result has no detail
    record, no report filename and no report path. *)
Theorem parse_results_report_discovery {L : Type} (output_dir : Dir)
  (scan_id : string) (w : World) (l : L) :
  exists (r : ScanResult.t) (w' : World),
    parse_results output_dir scan_id (w, l) = (Ok r, (w', l))
    /\ (forall first others,
           glob output_dir "report" ".html" = first :: others ->
           ScanResult.report_html r = Some (entry_name first)
           /\ ScanResult.report_path r
              = Some ("/api/scans/" ++ scan_id ++ "/report"))
    /\ (glob output_dir "report" ".jsonl" = [] ->
        glob output_dir "report" ".html" = [] ->
        r = empty_results /\ w' = w).
Proof.
  rewrite parse_results_run. unfold parsed.
  eexists. eexists. split; [reflexivity|]. split.
  - intros first others H. unfold report_fields. rewrite H. now simpl.
  - intros Hj Hh. unfold report_fields. rewrite Hh, Hj. simpl.
    now rewrite log_all_nil.
Qed.

End ParserClaims.

(** C4, as stated, fails: with the malformed line first, the well-formed
    line after it in the same file is never read, and the result has no
    detail record at all. *)
Lemma parse_results_malformed_line_first :
  @json_loads json_decoder good_line = Ok good_record
  /\ returns (@json_loads json_decoder bad_line) = false
  /\ fst (@parse_results json_decoder unit
            (scan_dir [report_jsonl [bad_line; good_line]]) "scan-1"
            (idle_world, tt))
     = Ok empty_results.
Proof. vm_compute. repeat split. Qed.

Lemma parse_results_tolerance_witness :
  exists r : ScanResult.t,
    fst (@parse_results json_decoder unit
           (scan_dir [report_jsonl [good_line; bad_line]]) "scan-1"
           (idle_world, tt)) = Ok r
    /\ ScanResult.details r = [good_record].
Proof.
  destruct (@parse_results_tolerance json_decoder unit
              (scan_dir [report_jsonl [good_line; bad_line]]) "scan-1"
              idle_world tt) as (r & Hrun & _ & _ & Hone).
  exists r. split.
  - now rewrite Hrun.
  - apply (Hone good_line bad_line good_record Decoder.decode_error);
      reflexivity.
Defined.

Lemma parse_results_report_discovery_witness :
  (exists r : ScanResult.t,
      fst (@parse_results json_decoder unit
             (scan_dir [report_jsonl [good_line]; report_html_file]) "scan-1"
             (idle_world, tt)) = Ok r
      /\ ScanResult.report_html r = Some "report.html"
      /\ ScanResult.report_path r = Some "/api/scans/scan-1/report")
  /\ @parse_results json_decoder unit (scan_dir []) "scan-1" (idle_world, tt)
     = (Ok empty_results, (idle_world, tt)).
Proof.
  split.
  - destruct (@parse_results_report_discovery json_decoder unit
                (scan_dir [report_jsonl [good_line]; report_html_file])
                "scan-1" idle_world tt) as (r & w' & Hrun & Hfound & _).
    exists r. split; [now rewrite Hrun|].
    apply (Hfound report_html_file []). reflexivity.
  - destruct (@parse_results_report_discovery json_decoder unit
                (scan_dir []) "scan-1" idle_world tt)
      as (r & w' & Hrun & _ & Hnone).
    destruct Hnone as [-> ->]; [reflexivity | reflexivity | exact Hrun].
Defined.

(** ** Scan job runner *)

Lemma send_json_run {L : Type} (ws : WebSocket) (e : event) (w : World)
  (l : L) :
  send_json ws e (w, l)
  = (match ws_link ws (List.length (sent w)) with
     | None => Ok tt
     | Some x => Raise x
     end,
     (push_sent e (ws_link ws (List.length (sent w))) w, l)).
Proof.
  unfold send_json, bind, get_world, modify_world, may_raise. simpl.
  destruct (ws_link ws (List.length (sent w))); reflexivity.
Qed.

Lemma delivered_push_sent (e : event) (fate : option exn) (w : World) :
  delivered (push_sent e fate w)
  = (delivered w ++ match fate with None => [e] | Some _ => [] end)%list.
Proof.
  unfold delivered, push_sent. simpl.
  rewrite filter_app, map_app. simpl.
  destruct fate; simpl; [now rewrite app_nil_r | reflexivity].
Qed.

Lemma delivered_push_log (lv : level) (m : string) (w : World) :
  delivered (push_log lv m w) = delivered w.
Proof. reflexivity. Qed.

Lemma delivered_log_all (m : list (level * string)) (w : World) :
  delivered (log_all m w) = delivered w.
Proof. reflexivity. Qed.

Lemma length_sent_push_sent (e : event) (fate : option exn) (w : World) :
  List.length (sent (push_sent e fate w)) = S (List.length (sent w)).
Proof. unfold push_sent. simpl. rewrite length_app. simpl. lia. Qed.

Lemma length_sent_push_log (lv : level) (m : string) (w : World) :
  List.length (sent (push_log lv m w)) = List.length (sent w).
Proof. reflexivity. Qed.

(** One step of symbolic execution: a send or a parse in closed form, or a
    case split on what a collaborator does. *)
Ltac run_step :=
  match goal with
  | |- context [send_json _ _ (_, _)] => rewrite send_json_run
  | |- context [parse_results _ _ (_, _)] => rewrite parse_results_run
  | |- context [match ws_link ?ws ?n with _ => _ end] =>
      destruct (ws_link ws n) eqn:?
  | |- context [match import_garak ?e with _ => _ end] =>
      destruct (import_garak e) eqn:?
  | |- context [match mkdir ?e ?d with _ => _ end] =>
      destruct (mkdir e d) eqn:?
  | |- context [match engine_raises ?r with _ => _ end] =>
      destruct (engine_raises r) as [[?|? ?]|] eqn:?
  end.

Ltac run_all :=
  repeat first
    [ progress unfold bind, try_except, try_except_all, call, may_raise,
        may_raise_any, lift_result, ret, raise,
        get_local, modify_local, logger_error, logger_info, modify_world,
        run_garak
    | progress cbn beta iota zeta delta [fst snd]
    | run_step ].

Ltac collect_delivered :=
  repeat first
    [ rewrite delivered_push_sent
    | rewrite delivered_push_log
    | rewrite delivered_log_all ];
  rewrite <- ?app_assoc.

(** A hypothesis says every send is delivered, an equation says one was
    refused. *)
Ltac refused_send H :=
  match goal with
  | E : ws_link _ _ = Some _ |- _ => rewrite H in E; discriminate E
  end.

Section RunnerFacts.

Context {JD : JsonDecoder}.


(** C1, amended: for every invocation of [run_scan], the events that reach
    the client are progress messages followed by at most one terminal
    event, never a [complete] and an [error] both. When the channel
    delivers every message and the engine invocation returns or raises an
    exception of the [Exception] hierarchy, exactly one terminal event is
    emitted: after the progress messages 0, 10, 20, 100 a [complete] with
    the scan id and the parsed result when the engine could be run and
    returned, and an [error] with a message otherwise. *)
Theorem run_scan_terminal_event {L : Type} (env : Env) (model_name : string)
  (probes : list string) (detectors : option (list string))
  (websocket : WebSocket) (scan_id : string) (w : World) (l : L) :
  exists (r : outcome (option ScanResult.t)) (w' : World)
         (new : list event),
    run_scan env model_name probes detectors websocket scan_id (w, l)
    = (r, (w', l))
    /\ delivered w' = (delivered w ++ new)%list
    /\ let fresh := filter is_terminal new in
       new = (filter (fun e => negb (is_terminal e)) new ++ fresh)%list
       /\ List.length fresh <= 1
       /\ ((forall n, ws_link websocket n = None) ->
           engine_exits env model_name probes detectors scan_id = false ->
           let res :=
             parsed (scan_output env model_name probes detectors scan_id)
                    scan_id in
           if run_succeeds env model_name probes detectors scan_id then
             r = Ok (Some res)
             /\ new = [Status ("Starting scan on model: " ++ model_name) 0;
                       Status "Initializing Garak..." 10;
                       Status "Running scan..." 20;
                       Status "Scan completed successfully!" 100;
                       Complete scan_id res]
           else
             r = Ok None /\ exists msg, fresh = [Error msg]).
Proof.
  unfold run_scan. run_all.
  all: do 3 eexists; (split; [reflexivity|]).
  all: collect_delivered; (split; [reflexivity|]).
  all: cbn [app filter is_terminal negb List.length].
  all: split; [reflexivity|].
  all: split; [lia|].
  all: intros Hall Hexit; try refused_send Hall.
  all: unfold engine_exits in Hexit;
    try match goal with
      | E : engine_raises _ = Some (BaseException _ _) |- _ =>
          rewrite E in Hexit; discriminate Hexit
      end.
  all: unfold run_succeeds, scan_output;
    repeat match goal with
      | E : _ = Some _ |- _ => rewrite E
      | E : _ = None |- _ => rewrite E
      end;
    cbv zeta; split; try reflexivity; eexists; reflexivity.
Qed.

(** C2: when the send that announces the scan is refused and the send of
    the [error] event in the handler is refused as well, [run_scan] raises
    the second exception to its caller. *)
Theorem run_scan_propagates_send_failure {L : Type} (env : Env)
  (model_name : string) (probes : list string)
  (detectors : option (list string)) (websocket : WebSocket)
  (scan_id : string) (w : World) (l : L) (e e' : exn) :
  ws_link websocket (List.length (sent w)) = Some e ->
  ws_link websocket (S (List.length (sent w))) = Some e' ->
  fst (run_scan env model_name probes detectors websocket scan_id (w, l))
  = Raise e'.
Proof.
  intros H0 H1. unfold run_scan.
  unfold call, try_except. cbn [fst snd].
  unfold bind at 1. unfold bind at 1.
  rewrite send_json_run, H0.
  unfold bind at 1, logger_error, modify_world. cbn [fst snd].
  rewrite send_json_run, length_sent_push_log, length_sent_push_sent, H1.
  reflexivity.
Qed.

End RunnerFacts.

(** C1, as stated, fails: when the client is gone while the engine runs
    and the engine then fails, two [error] events are attempted and no
    terminal event is delivered. *)
Lemma run_scan_no_terminal_event :
  let run :=
    @run_scan json_decoder unit (sample_env engine_failure) "llama3"
      ["dan.DAN_Jailbreak"] None (client_leaving_after 3) "scan-1"
      (idle_world, tt) in
  terminal_events (fst (snd run)) = []
  /\ filter is_terminal (attempted (fst (snd run)))
     = [Error "Scan failed. Check logs for details.";
        Error "Scan error: 1006"].
Proof. vm_compute. split; reflexivity. Qed.

Lemma run_scan_terminal_event_witness :
  exists w' : World,
    @run_scan json_decoder unit (sample_env engine_success) "llama3"
      ["dan.DAN_Jailbreak"] None client_staying "scan-1" (idle_world, tt)
    = (Ok (Some (ScanResult.mk [] [good_record; good_record]
                   (Some "report.html")
                   (Some "/api/scans/scan-1/report"))), (w', tt))
    /\ terminal_events w'
       = [Complete "scan-1"
            (ScanResult.mk [] [good_record; good_record]
               (Some "report.html") (Some "/api/scans/scan-1/report"))].
Proof.
  destruct (@run_scan_terminal_event json_decoder unit
              (sample_env engine_success) "llama3" ["dan.DAN_Jailbreak"]
              None client_staying "scan-1" idle_world tt)
    as (r & w' & new & Hrun & Hnew & _ & _ & Hall).
  destruct (Hall (fun n => eq_refl) eq_refl) as [Hr Hf].
  exists w'. split.
  - rewrite Hrun, Hr. reflexivity.
  - unfold terminal_events. rewrite Hnew, Hf. reflexivity.
Defined.

Lemma run_scan_propagates_send_failure_witness :
  fst (@run_scan json_decoder unit (sample_env engine_success) "llama3"
         ["dan.DAN_Jailbreak"] None (client_leaving_after 0) "scan-1"
         (idle_world, tt))
  = Raise disconnected.
Proof.
  apply (@run_scan_propagates_send_failure json_decoder unit
           (sample_env engine_success) "llama3" ["dan.DAN_Jailbreak"] None
           (client_leaving_after 0) "scan-1" idle_world tt
           disconnected disconnected);
    reflexivity.
Defined.

(** ** Scan record store *)

Lemma load_scans_run {L : Type} (w : World) (l : L) :
  @load_scans L (w, l) = (Ok (loaded w), (w, l)).
Proof.
  unfold load_scans, try_except_all, bind, get_world, loaded. simpl.
  destruct (scans_file w) as [|[|] wr [e|v|scans]]; reflexivity.
Qed.

Lemma loaded_usable (w : World) :
  store_usable w = true -> loaded w = RecordList (stored w).
Proof.
  unfold store_usable, loaded, stored.
  destruct (scans_file w) as [|[|] [|] [e|v|scans]]; simpl;
    intros H; try discriminate H; reflexivity.
Qed.

Lemma save_scan_run {L : Type} (scan : ScanRecord.t) (w : World) (l : L) :
  store_usable w = true ->
  @save_scan L scan (w, l)
  = (Ok tt, (put_scans_file (Scans (stored w ++ [scan])) w, l)).
Proof.
  intros Hok. unfold save_scan, call, bind. cbn [fst snd].
  rewrite load_scans_run, (loaded_usable w Hok).
  unfold list_append, ret, dump_scans, bind, get_world, modify_world.
  cbn [fst snd]. unfold store_usable in Hok.
  destruct (scans_file w) as [|[|] [|] c]; simpl in Hok;
    try discriminate Hok; reflexivity.
Qed.

(** A store [save_scan] does not get through: it raises and leaves the
    file as it is, or it writes a file that cannot be read. *)
Lemma save_scan_unusable {L : Type} (scan : ScanRecord.t) (w : World)
  (l : L) :
  store_usable w = false ->
  (exists e : exn, @save_scan L scan (w, l) = (Raise e, (w, l)))
  \/ (exists c,
        scans_file w = File false true c
        /\ @save_scan L scan (w, l)
           = (Ok tt, (put_scans_file (File false true (Records [scan])) w, l))).
Proof.
  intros Hno. unfold save_scan, call, bind. cbn [fst snd].
  rewrite load_scans_run. unfold loaded, store_usable in *.
  unfold list_append, ret, raise, dump_scans, bind, get_world, modify_world.
  destruct (scans_file w) as [|[|] [|] [e|v|scans]] eqn:Hf; simpl in *;
    try discriminate Hno; cbn [fst snd]; rewrite ?Hf;
    try (left; eexists; reflexivity);
    right; eexists; split; reflexivity.
Qed.

Lemma complete_scan_run {L : Type} (scan_id : string)
  (scan_results : option ScanResult.t) (scans : list ScanRecord.t)
  (w : World) (l : L) :
  @complete_scan L scan_id scan_results scans (w, l)
  = (Ok (mark_completed scan_id scan_results scans),
     (log_all (completion_log scan_id scan_results scans) w, l)).
Proof.
  revert w. induction scans as [|scan rest IH]; intros w; simpl.
  - unfold ret. now rewrite log_all_nil.
  - destruct (String.eqb (ScanRecord.id scan) scan_id).
    + destruct scan_results as [res|].
      * reflexivity.
      * unfold ret. now rewrite log_all_nil.
    + unfold bind. now rewrite IH.
Qed.

(** With a fresh id the update loop reaches the record just appended. *)
Lemma mark_completed_last (scan_id : string)
  (scan_results : option ScanResult.t) (prior : list ScanRecord.t)
  (scan : ScanRecord.t) :
  fresh_id scan_id prior = true ->
  ScanRecord.id scan = scan_id ->
  mark_completed scan_id scan_results (prior ++ [scan])
  = (prior
       ++ [match scan_results with
           | Some res =>
               ScanRecord.set_results res
                 (ScanRecord.set_status "completed" scan)
           | None => ScanRecord.set_status "completed" scan
           end])%list.
Proof.
  intros Hfresh Hid. induction prior as [|p prior IH]; simpl in *.
  - rewrite Hid, String.eqb_refl. now destruct scan_results.
  - apply andb_true_iff in Hfresh as [Hp Hrest].
    apply negb_true_iff in Hp. rewrite Hp. f_equal. now apply IH.
Qed.

(** C9: when [scans.json] is missing, cannot be read, or holds text that
    [json.load] rejects, [load_scans] returns the empty list and raises
    nothing; it changes nothing either. A file that can be read and
    decodes is returned as it decodes, list or not. *)
Theorem load_scans_degrades_to_empty {L : Type} (w : World) (l : L) :
  ((scans_file w = Absent
    \/ (exists writable content, scans_file w = File false writable content)
    \/ (exists readable writable e,
          scans_file w = File readable writable (Undecodable e))) ->
   @load_scans L (w, l) = (Ok (RecordList []), (w, l)))
  /\ (forall writable scans,
         scans_file w = File true writable (Records scans) ->
         @load_scans L (w, l) = (Ok (RecordList scans), (w, l)))
  /\ (forall writable v,
         scans_file w = File true writable (Holds v) ->
         @load_scans L (w, l) = (Ok (Other v), (w, l))).
Proof.
  rewrite load_scans_run. unfold loaded. split; [|split].
  - intros [-> | [(wr & c & ->) | (rd & wr & e & ->)]];
      try reflexivity. now destruct rd.
  - intros wr scans ->. reflexivity.
  - intros wr v ->. reflexivity.
Qed.

Lemma load_scans_degrades_to_empty_witness :
  @load_scans unit
    (put_scans_file
       (File true true
          (Undecodable (Exception "JSONDecodeError" "Expecting value")))
       idle_world, tt)
  = (Ok (RecordList []),
     (put_scans_file
        (File true true
           (Undecodable (Exception "JSONDecodeError" "Expecting value")))
        idle_world, tt))
  /\ @load_scans unit (put_scans_file Absent idle_world, tt)
     = (Ok (RecordList []), (put_scans_file Absent idle_world, tt))
  /\ @load_scans unit
       (put_scans_file (File false false (Records [sample_running]))
          idle_world, tt)
     = (Ok (RecordList []),
        (put_scans_file (File false false (Records [sample_running]))
           idle_world, tt)).
Proof.
  split; [|split].
  - apply (@load_scans_degrades_to_empty unit
             (put_scans_file
                (File true true
                   (Undecodable
                      (Exception "JSONDecodeError" "Expecting value")))
                idle_world) tt).
    right. right. do 3 eexists. reflexivity.
  - apply (@load_scans_degrades_to_empty unit
             (put_scans_file Absent idle_world) tt).
    left. reflexivity.
  - apply (@load_scans_degrades_to_empty unit
             (put_scans_file (File false false (Records [sample_running]))
                idle_world) tt).
    right. left. do 2 eexists. reflexivity.
Defined.

(** ** Progress channel handler *)

Lemma py_in_last (x : nat) (l : list nat) : py_in x (l ++ [x]) = true.
Proof.
  unfold py_in. rewrite existsb_app. simpl. rewrite Nat.eqb_refl.
  now rewrite orb_true_r.
Qed.

Lemma remove_first_last (x : nat) (l : list nat) :
  ~ In x l -> remove_first x (l ++ [x]) = l.
Proof.
  induction l as [|a l IH]; intros H; simpl.
  - now rewrite Nat.eqb_refl.
  - destruct (Nat.eqb_spec x a) as [->|N].
    + elim H. now left.
    + f_equal. apply IH. intros Hin. apply H. now right.
Qed.

(** Appending a connection and removing its first occurrence leaves every
    connection as often in the list as before. *)
Lemma count_occ_remove_first_last (x y : nat) (l : list nat) :
  count_occ Nat.eq_dec (remove_first x (l ++ [x])) y
  = count_occ Nat.eq_dec l y.
Proof.
  induction l as [|a l IH]; simpl.
  - now rewrite Nat.eqb_refl.
  - destruct (Nat.eqb_spec x a) as [->|N].
    + rewrite count_occ_app. simpl.
      destruct (Nat.eq_dec a y); lia.
    + simpl. now rewrite IH.
Qed.

Lemma stored_push_log (lv : level) (m : string) (w : World) :
  stored (push_log lv m w) = stored w.
Proof. reflexivity. Qed.

Lemma stored_put_connections (l : list nat) (w : World) :
  stored (put_connections l w) = stored w.
Proof. reflexivity. Qed.

Ltac store_step :=
  match goal with
  | |- context [@load_scans _ (_, _)] => rewrite load_scans_run
  | |- context [@complete_scan _ _ _ _ (_, _)] => rewrite complete_scan_run
  end.



Section HandlerFacts.

Context {JD : JsonDecoder}.


(** C10: when no request arrives, because the client is gone or because
    receiving fails otherwise, the handler returns with [scans.json] as it
    was; no record is made and nothing but at most one [error] event is
    sent, so no [status] and no [complete]; every connection is in the list
    of active connections as often as before, and the list is the same
    when the connection was not in it. *)
Theorem websocket_scan_without_request (env : Env) (websocket : WebSocket)
  (w : World) (e : exn) :
  ws_accept websocket = None ->
  ws_receive_json websocket = Raise e ->
  exists (w' : World) (extra : list (event * option exn)),
    websocket_scan env websocket (w, tt) = (Ok tt, (w', tt))
    /\ scans_file w' = scans_file w
    /\ sent w' = (sent w ++ extra)%list
    /\ Forall (fun p => exists msg, fst p = Error msg) extra
    /\ (forall c,
           count_occ Nat.eq_dec (active_connections w') c
           = count_occ Nat.eq_dec (active_connections w) c)
    /\ (~ In (ws_id websocket) (active_connections w) ->
        active_connections w' = active_connections w).
Proof.
  intros Ha Hr. unfold websocket_scan, try_finally. rewrite Ha, Hr.
  unfold get_world.
  run_all.
  destruct e as [text|cls msg]; run_all.
  all: cbn [active_connections put_connections push_log push_sent].
  all: rewrite py_in_last.
  all: do 2 eexists; (split; [reflexivity|]).
  all: cbn [fst scans_file sent active_connections put_connections push_log
              push_sent].
  all: split; [reflexivity|].
  all: split; [first [reflexivity | symmetry; apply app_nil_r]|].
  all: split; [repeat constructor; eexists; reflexivity|].
  all: split; [intros c; apply count_occ_remove_first_last
              | apply remove_first_last].
Qed.

End HandlerFacts.

Lemma websocket_scan_without_request_witness :
  exists w' : World,
    @websocket_scan json_decoder (sample_env engine_success) client_silent
      (idle_world, tt) = (Ok tt, (w', tt))
    /\ scans_file w' = Scans []
    /\ sent w' = []
    /\ active_connections w' = [].
Proof.
  destruct (@websocket_scan_without_request json_decoder
              (sample_env engine_success) client_silent idle_world
              disconnected eq_refl eq_refl)
    as (w' & extra & Hrun & Hfile & Hsent & _ & _ & Hconn).
  exists w'. split; [exact Hrun|].
  vm_compute in Hrun. injection Hrun as Hw'. subst w'.
  repeat split.
Defined.

Section LiveChannel.

Context {JD : JsonDecoder}.



End LiveChannel.

(** C3: a client takes the three progress messages and is gone while the
    engine runs; the engine returns, both sends after it are refused, and
    the handler ends with the record of the scan still [running]. *)
Theorem disconnect_in_flight_leaves_record_running :
  let run :=
    @websocket_scan json_decoder (sample_env engine_success)
      (client_leaving_after 3) (idle_world, tt) in
  fst run = Ok tt
  /\ scans_file (fst (snd run)) = Scans [sample_running]
  /\ ScanRecord.status sample_running = "running"
  /\ map snd (sent (fst (snd run)))
     = [None; None; None; Some disconnected; Some disconnected]
  /\ attempted (fst (snd run))
     = [Status "Starting scan on model: llama3" 0;
        Status "Initializing Garak..." 10;
        Status "Running scan..." 20;
        Status "Scan completed successfully!" 100;
        Error "Scan error: 1006"].
Proof. vm_compute. repeat split. Qed.

(** C7: the engine fails after the client is gone; the record appended as
    [running] on acceptance is never rewritten as [completed]. *)
Theorem engine_failure_after_disconnect_leaves_record_running :
  let run :=
    @websocket_scan json_decoder (sample_env engine_failure)
      (client_leaving_after 3) (idle_world, tt) in
  fst run = Ok tt
  /\ scans_file (fst (snd run)) = Scans [sample_running]
  /\ ScanRecord.status sample_running = "running"
  /\ ScanRecord.results sample_running = None
  /\ attempted (fst (snd run))
     = [Status "Starting scan on model: llama3" 0;
        Status "Initializing Garak..." 10;
        Status "Running scan..." 20;
        Error "Scan failed. Check logs for details.";
        Error "Scan error: 1006"].
Proof. vm_compute. repeat split. Qed.

(** The same two scans with a client that stays: the record ends as
    [completed], with the two detail records when the engine returned and
    without results when it failed. *)
Lemma scans_with_client_staying :
  scans_file
    (fst (snd (@websocket_scan json_decoder (sample_env engine_success)
                 client_staying (idle_world, tt))))
  = Scans [ScanRecord.set_results
             (ScanResult.mk [] [good_record; good_record]
                (Some "report.html") (Some "/api/scans/scan-1/report"))
             (ScanRecord.set_status "completed" sample_running)]
  /\ scans_file
       (fst (snd (@websocket_scan json_decoder (sample_env engine_failure)
                    client_staying (idle_world, tt))))
     = Scans [ScanRecord.set_status "completed" sample_running].
Proof. vm_compute. split; reflexivity. Qed.

(** * Further properties *)

(** ** Identifier normaliser *)

(** X1: normalising only ever removes a prefix: the name is the result
    with nothing, the category-only prefix or the fully-qualified prefix in
    front of it. *)
Theorem normalize_plugin_name_suffix (name category : string) :
  exists p : string,
    name = p ++ normalize_plugin_name name category
    /\ (p = "" \/ p = short_prefix category \/ p = full_prefix category).
Proof.
  destruct (PyStr.startswith name (full_prefix category)) eqn:E1.
  - exists (full_prefix category). split; [|auto].
    rewrite normalize_full by exact E1. now apply startswith_split.
  - destruct (PyStr.startswith name (short_prefix category)) eqn:E2.
    + exists (short_prefix category). split; [|auto].
      rewrite normalize_short by assumption. now apply startswith_split.
    + exists "". split; [|auto].
      rewrite normalize_plain; [reflexivity|].
      unfold has_plugin_prefix. now rewrite E1, E2.
Qed.

(** ** Result parser *)

Section ParserExtras.

Context {JD : JsonDecoder}.

Lemma decoded_prefix_nonblank (lines : list string) :
  decoded_prefix (filter nonblank lines) = decoded_prefix lines.
Proof.
  induction lines as [|line rest IH]; simpl; [reflexivity|].
  unfold nonblank at 1.
  destruct (PyStr.truthy (PyStr.strip line)) eqn:E; simpl.
  - rewrite E. destruct (json_loads line); [|reflexivity]. now rewrite IH.
  - exact IH.
Qed.

Lemma glob_map_same_name (f : DirEntry -> DirEntry) (d : Dir) (suffix : string) :
  (forall e, entry_name (f e) = entry_name e) ->
  glob (with_entries (map f) d) "report" suffix
  = map f (glob d "report" suffix).
Proof.
  intros Hname. unfold glob, with_entries. simpl.
  induction (dir_entries d) as [|e es IH]; simpl; [reflexivity|].
  rewrite Hname.
  destruct (fnmatch_star "report" suffix (entry_name e)); simpl; now rewrite IH.
Qed.

Lemma without_blank_lines_name (e : DirEntry) :
  entry_name (without_blank_lines e) = entry_name e.
Proof. unfold without_blank_lines. now destruct (entry_node e). Qed.

Lemma file_details_without_blank (e : DirEntry) :
  file_details (without_blank_lines e) = file_details e.
Proof.
  unfold file_details, without_blank_lines.
  destruct (entry_node e) eqn:E; simpl; [|now rewrite E].
  now rewrite decoded_prefix_nonblank.
Qed.

Lemma file_log_without_blank (d d' : Dir) (e : DirEntry) :
  dir_path d' = dir_path d ->
  file_log d' (without_blank_lines e) = file_log d e.
Proof.
  intros Hp. unfold file_log, file_failure, entry_path.
  rewrite Hp, without_blank_lines_name.
  unfold without_blank_lines.
  destruct (entry_node e) eqn:E; simpl; [|now rewrite E].
  now rewrite decoded_prefix_nonblank.
Qed.

Lemma flat_map_map_ext {A C : Type} (f : A -> A) (g h : A -> list C)
  (l : list A) :
  (forall a, g (f a) = h a) -> flat_map g (map f l) = flat_map h l.
Proof.
  intros H. induction l as [|a l IH]; simpl; [reflexivity|].
  now rewrite H, IH.
Qed.

(** X2: blank lines play no part: a directory and the same directory with
    the blank lines taken out of its files give the same result and the
    same log. *)
Theorem parse_results_ignores_blank_lines {L : Type} (d : Dir)
  (scan_id : string) (s : World * L) :
  parse_results (with_entries (map without_blank_lines) d) scan_id s
  = parse_results d scan_id s.
Proof.
  destruct s as [w l]. rewrite !parse_results_run.
  unfold parsed, report_fields.
  rewrite !(glob_map_same_name without_blank_lines d)
    by apply without_blank_lines_name.
  rewrite (flat_map_map_ext without_blank_lines file_details file_details)
    by apply file_details_without_blank.
  rewrite (flat_map_map_ext without_blank_lines
             (file_log (with_entries (map without_blank_lines) d))
             (file_log d))
    by (intros e; now apply file_log_without_blank).
  destruct (glob d "report" ".html") as [|first others]; simpl;
    [|rewrite without_blank_lines_name]; reflexivity.
Qed.

Lemma filter_filter_orb {A : Type} (p q : A -> bool) (l : list A) :
  filter p (filter (fun a => p a || q a) l) = filter p l
  /\ filter q (filter (fun a => p a || q a) l) = filter q l.
Proof.
  induction l as [|a l [IH1 IH2]]; simpl; [auto|].
  destruct (p a) eqn:Ep, (q a) eqn:Eq; simpl;
    rewrite ?Ep, ?Eq, IH1, IH2; auto.
Qed.

(** X3: entries that match neither report pattern play no part: the result
    and the log are those of the directory with only its reports. *)
Theorem parse_results_ignores_other_files {L : Type} (d : Dir)
  (scan_id : string) (s : World * L) :
  parse_results (with_entries (filter is_report) d) scan_id s
  = parse_results d scan_id s.
Proof.
  destruct s as [w l]. rewrite !parse_results_run.
  assert (forall suffix,
             (suffix = ".jsonl" \/ suffix = ".html") ->
             glob (with_entries (filter is_report) d) "report" suffix
             = glob d "report" suffix) as Hg.
  { intros suffix [-> | ->]; unfold glob, with_entries, is_report; simpl;
      apply (filter_filter_orb
               (fun e => fnmatch_star "report" ".jsonl" (entry_name e))
               (fun e => fnmatch_star "report" ".html" (entry_name e))). }
  unfold parsed, report_fields. rewrite !Hg by auto.
  reflexivity.
Qed.

(** When every non-blank line decodes, a file is read to its end. *)
Lemma decoded_prefix_all (lines : list string) :
  (forall line, In line lines -> nonblank line = true ->
                exists v, json_loads line = Ok v) ->
  snd (decoded_prefix lines) = None
  /\ Forall2 (fun line v => json_loads line = Ok v)
             (filter nonblank lines) (fst (decoded_prefix lines)).
Proof.
  induction lines as [|line rest IH]; intros H; simpl.
  - split; [reflexivity | constructor].
  - destruct IH as [IH1 IH2]; [intros x Hx; apply H; now right|].
    unfold nonblank at 1 in H. unfold nonblank at 1.
    destruct (PyStr.truthy (PyStr.strip line)) eqn:E.
    + destruct (H line (or_introl eq_refl)) as [v Hv]; [exact E|].
      rewrite Hv. destruct (decoded_prefix rest) as [ds oe]; simpl in *.
      split; [exact IH1|]. constructor; assumption.
    + split; assumption.
Qed.

(** X4: when every line-delimited report can be opened and every non-blank
    line of it decodes, nothing is logged and the detail records are the
    decoded non-blank lines, one for one, file after file and line after
    line. *)
Theorem parse_results_complete {L : Type} (d : Dir) (scan_id : string)
  (w : World) (l : L) :
  (forall file, In file (glob d "report" ".jsonl") ->
     exists lines, entry_node file = TextFile lines
       /\ forall line, In line lines -> nonblank line = true ->
                       exists v, json_loads line = Ok v) ->
  exists r : ScanResult.t,
    parse_results d scan_id (w, l) = (Ok r, (w, l))
    /\ Forall2 (fun line v => json_loads line = Ok v)
               (filter nonblank (report_lines d)) (ScanResult.details r).
Proof.
  intros H. rewrite parse_results_run. unfold report_lines.
  assert (flat_map (file_log d) (glob d "report" ".jsonl") = []
          /\ Forall2 (fun line v => json_loads line = Ok v)
               (filter nonblank
                  (flat_map (fun file =>
                               match entry_node file with
                               | TextFile lines => lines
                               | NotReadable _ => []
                               end) (glob d "report" ".jsonl")))
               (flat_map file_details (glob d "report" ".jsonl")))
    as [Hlog Hdet].
  { induction (glob d "report" ".jsonl") as [|file files IH]; simpl.
    - split; [reflexivity | constructor].
    - destruct IH as [IH1 IH2]; [intros f Hf; apply H; now right|].
      destruct (H file (or_introl eq_refl)) as (lines & Hn & Hl).
      destruct (decoded_prefix_all lines Hl) as [Hs Hd].
      unfold file_log, file_failure, file_details. rewrite Hn, Hs. simpl.
      split; [exact IH1|].
      rewrite filter_app. now apply Forall2_app. }
  rewrite Hlog, log_all_nil. eexists. split; [reflexivity|].
  unfold parsed, report_fields.
  destruct (glob d "report" ".html"); simpl; exact Hdet.
Qed.
End ParserExtras.

Lemma parse_results_complete_witness :
  exists r : ScanResult.t,
    @parse_results json_decoder unit
      (scan_dir [report_jsonl [good_line; String "010" EmptyString; good_line];
                 report_html_file]) "scan-1" (idle_world, tt)
    = (Ok r, (idle_world, tt))
    /\ ScanResult.details r = [good_record; good_record].
Proof.
  destruct (@parse_results_complete json_decoder unit
              (scan_dir [report_jsonl
                           [good_line; String "010" EmptyString; good_line];
                         report_html_file]) "scan-1" idle_world tt)
    as (r & Hrun & Hdet).
  - intros file [<- | []]. eexists. split; [reflexivity|].
    intros line [<- | [<- | [<- | []]]] Hnb;
      try discriminate Hnb; exists good_record; reflexivity.
  - exists r. split; [exact Hrun|].
    vm_compute in Hrun. injection Hrun as Hr. subst r. reflexivity.
Defined.

(** ** Scan job runner *)

Lemma sent_push_sent (e : event) (fate : option exn) (w : World) :
  sent (push_sent e fate w) = (sent w ++ [(e, fate)])%list.
Proof. reflexivity. Qed.

Lemma sent_push_log (lv : level) (m : string) (w : World) :
  sent (push_log lv m w) = sent w.
Proof. reflexivity. Qed.

Lemma sent_log_all (m : list (level * string)) (w : World) :
  sent (log_all m w) = sent w.
Proof. reflexivity. Qed.

Lemma log_push_sent (e : event) (fate : option exn) (w : World) :
  log (push_sent e fate w) = log w.
Proof. reflexivity. Qed.

Lemma log_push_log (lv : level) (m : string) (w : World) :
  log (push_log lv m w) = (log w ++ [(lv, m)])%list.
Proof. reflexivity. Qed.

Lemma log_log_all (m : list (level * string)) (w : World) :
  log (log_all m w) = (log w ++ m)%list.
Proof. reflexivity. Qed.

Ltac collect_sent :=
  repeat first
    [ rewrite sent_push_sent | rewrite sent_push_log | rewrite sent_log_all ];
  rewrite <- ?app_assoc.

Ltac collect_log :=
  repeat first
    [ rewrite log_push_sent | rewrite log_push_log | rewrite log_log_all ];
  rewrite <- ?app_assoc.

Lemma length_sent_after_log_all (m : list (level * string)) (w : World) :
  List.length (sent (log_all m w)) = List.length (sent w).
Proof. reflexivity. Qed.

(** The index of a send, counted from the start of the run. *)
Ltac count_sends :=
  repeat match goal with
    | E : ws_link _ _ = _ |- _ =>
        progress rewrite ?length_sent_push_sent, ?length_sent_push_log,
          ?length_sent_after_log_all in E
    end.

Section RunnerExtras.

Context {JD : JsonDecoder}.

(** X5: whatever the channel and the engine do, the status events
    [run_scan] attempts carry the progress values 0, 10, 20, 100 in this
    order, up to the point where the run stops; at most six messages are
    attempted, and progress 100 is only announced when the engine could be
    run and returned. *)
Theorem run_scan_progress {L : Type} (env : Env) (model_name : string)
  (probes : list string) (detectors : option (list string))
  (websocket : WebSocket) (scan_id : string) (w : World) (l : L) :
  exists (r : outcome (option ScanResult.t)) (w' : World)
         (new : list (event * option exn)) (k : nat),
    run_scan env model_name probes detectors websocket scan_id (w, l)
    = (r, (w', l))
    /\ sent w' = (sent w ++ new)%list
    /\ List.length new <= 6
    /\ progress_values (map fst new) = firstn k [0; 10; 20; 100]
    /\ (In 100 (progress_values (map fst new)) ->
        run_succeeds env model_name probes detectors scan_id = true).
Proof.
  unfold run_scan. run_all.
  all: eexists; eexists; eexists.
  all: first [ exists 1; split; [reflexivity|]; collect_sent;
               split; [reflexivity|]; split; [simpl; lia|];
               split; [reflexivity|]
             | exists 2; split; [reflexivity|]; collect_sent;
               split; [reflexivity|]; split; [simpl; lia|];
               split; [reflexivity|]
             | exists 3; split; [reflexivity|]; collect_sent;
               split; [reflexivity|]; split; [simpl; lia|];
               split; [reflexivity|]
             | exists 4; split; [reflexivity|]; collect_sent;
               split; [reflexivity|]; split; [simpl; lia|];
               split; [reflexivity|] ].
  all: simpl; intros Hin;
    try (repeat destruct Hin as [Hin | Hin]; try discriminate Hin;
         now elim Hin).
  all: unfold run_succeeds;
    repeat match goal with
      | E : _ = None |- _ => rewrite E
      end; reflexivity.
Qed.

(** X6: [run_scan] hands a result to its caller only when the engine could
    be run and returned, and the result is then what [parse_results] makes
    of the scan directory; this holds whatever becomes of the events. *)
Theorem run_scan_result_is_parsed {L : Type} (env : Env)
  (model_name : string) (probes : list string)
  (detectors : option (list string)) (websocket : WebSocket)
  (scan_id : string) (w : World) (l : L) (res : ScanResult.t) :
  fst (run_scan env model_name probes detectors websocket scan_id (w, l))
  = Ok (Some res) ->
  run_succeeds env model_name probes detectors scan_id = true
  /\ res = parsed (scan_output env model_name probes detectors scan_id)
                  scan_id.
Proof.
  unfold run_scan. run_all.
  all: cbn [fst]; intros H; try discriminate H.
  all: injection H as <-.
  all: unfold run_succeeds, scan_output;
    repeat match goal with
      | E : _ = None |- _ => rewrite E
      end; split; reflexivity.
Qed.

(** X7: when the scan went well but the send of the [complete] event is
    refused, and the send of the [error] event that follows is delivered,
    the client is told that the scan failed while [run_scan] still returns
    the parsed result to its caller. *)
Theorem run_scan_result_after_refused_complete {L : Type} (env : Env)
  (model_name : string) (probes : list string)
  (detectors : option (list string)) (websocket : WebSocket)
  (scan_id : string) (w : World) (l : L) (e : exn) :
  run_succeeds env model_name probes detectors scan_id = true ->
  (forall i, i < 4 -> ws_link websocket (List.length (sent w) + i) = None) ->
  ws_link websocket (List.length (sent w) + 4) = Some e ->
  ws_link websocket (List.length (sent w) + 5) = None ->
  let res :=
    parsed (scan_output env model_name probes detectors scan_id) scan_id in
  exists w' : World,
    run_scan env model_name probes detectors websocket scan_id (w, l)
    = (Ok (Some res), (w', l))
    /\ delivered w'
       = (delivered w
            ++ [Status ("Starting scan on model: " ++ model_name) 0;
                Status "Initializing Garak..." 10;
                Status "Running scan..." 20;
                Status "Scan completed successfully!" 100;
                Error ("Scan error: " ++ str_exn e)])%list.
Proof.
  intros Hok Hfirst Hfifth Hsixth.
  assert (H0 := Hfirst 0). assert (H1 := Hfirst 1).
  assert (H2 := Hfirst 2). assert (H3 := Hfirst 3).
  rewrite Nat.add_0_r in H0.
  replace (List.length (sent w) + 1) with (S (List.length (sent w)))
    in H1 by lia.
  replace (List.length (sent w) + 2) with (S (S (List.length (sent w))))
    in H2 by lia.
  replace (List.length (sent w) + 3)
    with (S (S (S (List.length (sent w))))) in H3 by lia.
  replace (List.length (sent w) + 4)
    with (S (S (S (S (List.length (sent w)))))) in Hfifth by lia.
  replace (List.length (sent w) + 5)
    with (S (S (S (S (S (List.length (sent w))))))) in Hsixth by lia.
  specialize (H0 ltac:(lia)). specialize (H1 ltac:(lia)).
  specialize (H2 ltac:(lia)). specialize (H3 ltac:(lia)).
  unfold run_succeeds in Hok. cbv zeta. unfold scan_output.
  unfold run_scan. run_all.
  all: count_sends.
  all: try congruence.
  all: eexists; split; [reflexivity|].
  all: collect_delivered; cbn [app].
  all: congruence.
Qed.

(** X8: [run_scan] writes to the channel and to the log only: [scans.json]
    and the list of connections are as before, and what was sent and
    logged before is still there, in front of what the run adds. *)
Theorem run_scan_touches_channel_and_log_only {L : Type} (env : Env)
  (model_name : string) (probes : list string)
  (detectors : option (list string)) (websocket : WebSocket)
  (scan_id : string) (w : World) (l : L) :
  exists (r : outcome (option ScanResult.t)) (w' : World)
         (new : list (event * option exn)) (lines : list (level * string)),
    run_scan env model_name probes detectors websocket scan_id (w, l)
    = (r, (w', l))
    /\ scans_file w' = scans_file w
    /\ active_connections w' = active_connections w
    /\ sent w' = (sent w ++ new)%list
    /\ log w' = (log w ++ lines)%list.
Proof.
  unfold run_scan. run_all.
  all: do 4 eexists; (split; [reflexivity|]).
  all: split; [reflexivity|]; split; [reflexivity|].
  all: split; [collect_sent; try reflexivity; symmetry; apply app_nil_r|].
  all: collect_log; try reflexivity; symmetry; apply app_nil_r.
Qed.

End RunnerExtras.

Lemma run_scan_result_is_parsed_witness :
  run_succeeds (sample_env engine_success) "llama3" ["dan.DAN_Jailbreak"]
               None "scan-1" = true
  /\ ScanResult.mk [] [good_record; good_record] (Some "report.html")
                   (Some "/api/scans/scan-1/report")
     = parsed (JD := json_decoder)
         (scan_output (sample_env engine_success) "llama3"
                      ["dan.DAN_Jailbreak"] None "scan-1") "scan-1".
Proof.
  apply (@run_scan_result_is_parsed json_decoder unit
           (sample_env engine_success) "llama3" ["dan.DAN_Jailbreak"] None
           client_staying "scan-1" idle_world tt).
  reflexivity.
Defined.

Lemma run_scan_result_after_refused_complete_witness :
  exists w' : World,
    @run_scan json_decoder unit (sample_env engine_success) "llama3"
      ["dan.DAN_Jailbreak"] None (client_with_link fifth_refused) "scan-1"
      (idle_world, tt)
    = (Ok (Some (ScanResult.mk [] [good_record; good_record]
                   (Some "report.html")
                   (Some "/api/scans/scan-1/report"))), (w', tt))
    /\ terminal_events w' = [Error "Scan error: Unexpected ASGI message"].
Proof.
  destruct (@run_scan_result_after_refused_complete json_decoder unit
              (sample_env engine_success) "llama3" ["dan.DAN_Jailbreak"]
              None (client_with_link fifth_refused) "scan-1" idle_world tt
              (Exception "RuntimeError" "Unexpected ASGI message"))
    as (w' & Hrun & Hdel).
  - reflexivity.
  - intros i Hi. simpl. unfold fifth_refused.
    destruct (Nat.eqb_spec i 4); [lia | reflexivity].
  - reflexivity.
  - reflexivity.
  - exists w'. split; [exact Hrun|].
    unfold terminal_events. rewrite Hdel. reflexivity.
Defined.

(** ** Scan record store *)


Lemma find_fresh (scan_id : string) (scans : list ScanRecord.t) :
  fresh_id scan_id scans = true ->
  find (fun s => String.eqb (ScanRecord.id s) scan_id) scans = None.
Proof.
  intros Hfresh. induction scans as [|p scans IH]; simpl in *; [reflexivity|].
  apply andb_true_iff in Hfresh as [Hp Hrest].
  apply negb_true_iff in Hp. rewrite Hp. now apply IH.
Qed.

Lemma find_first_match (scan_id : string) (pre post : list ScanRecord.t)
  (scan : ScanRecord.t) :
  fresh_id scan_id pre = true ->
  ScanRecord.id scan = scan_id ->
  find (fun s => String.eqb (ScanRecord.id s) scan_id) (pre ++ scan :: post)
  = Some scan.
Proof.
  intros Hfresh Hid. induction pre as [|p pre IH]; simpl in *.
  - now rewrite Hid, String.eqb_refl.
  - apply andb_true_iff in Hfresh as [Hp Hrest].
    apply negb_true_iff in Hp. rewrite Hp. now apply IH.
Qed.

Lemma mark_completed_fresh (scan_id : string)
  (scan_results : option ScanResult.t) (scans : list ScanRecord.t) :
  fresh_id scan_id scans = true ->
  mark_completed scan_id scan_results scans = scans
  /\ completion_log scan_id scan_results scans = [].
Proof.
  intros Hfresh. induction scans as [|p scans IH]; simpl in *; [auto|].
  apply andb_true_iff in Hfresh as [Hp Hrest].
  apply negb_true_iff in Hp. rewrite Hp.
  destruct (IH Hrest) as [-> ->]. auto.
Qed.

Lemma mark_completed_first (scan_id : string)
  (scan_results : option ScanResult.t) (pre post : list ScanRecord.t)
  (scan : ScanRecord.t) :
  fresh_id scan_id pre = true ->
  ScanRecord.id scan = scan_id ->
  mark_completed scan_id scan_results (pre ++ scan :: post)
  = (pre
       ++ ScanRecord.mk (ScanRecord.id scan) (ScanRecord.timestamp scan)
            (ScanRecord.model_name scan) (ScanRecord.probes scan)
            (ScanRecord.detectors scan) (ScanRecord.description scan)
            "completed"
            (match scan_results with
             | Some res => Some res
             | None => ScanRecord.results scan
             end)
       :: post)%list.
Proof.
  intros Hfresh Hid. subst scan_id.
  induction pre as [|p pre IH]; simpl in *.
  - rewrite String.eqb_refl. now destruct scan_results.
  - apply andb_true_iff in Hfresh as [Hp Hrest].
    apply negb_true_iff in Hp. rewrite Hp. f_equal. now apply IH.
Qed.

Lemma stored_Scans (scans : list ScanRecord.t) (w : World) :
  stored (put_scans_file (Scans scans) w) = scans.
Proof. reflexivity. Qed.

(** What [save_scan] does on any store: it returns, or it raises an
    exception and leaves everything as it was; the channel and the
    connections are never touched; the records that can be read afterwards
    are the earlier ones, followed by the new one when it can be read
    back. *)
Lemma save_scan_cases {L : Type} (scan : ScanRecord.t) (w : World) (l : L) :
  exists (o : outcome unit) (w' : World),
    @save_scan L scan (w, l) = (o, (w', l))
    /\ sent w' = sent w
    /\ active_connections w' = active_connections w
    /\ (o = Ok tt \/ (exists e : exn, o = Raise e) /\ w' = w)
    /\ (stored w' = stored w \/ stored w' = (stored w ++ [scan])%list).
Proof.
  destruct (store_usable w) eqn:Hu.
  - rewrite save_scan_run by exact Hu. do 2 eexists.
    split; [reflexivity|]. repeat split; auto.
  - destruct (save_scan_unusable (L := L) scan w l Hu)
      as [[e ->] | (c & Hf & ->)].
    + do 2 eexists. split; [reflexivity|]. repeat split; eauto 6.
    + do 2 eexists. split; [reflexivity|]. repeat split; auto.
      left. unfold stored. cbn [scans_file put_scans_file].
      now rewrite Hf.
Qed.

(** What the update of the record does on any store. *)
Lemma update_record_cases {L : Type} (scan_id : string)
  (scan_results : option ScanResult.t) (w : World) (l : L) :
  exists (o : outcome unit) (w' : World),
    @update_record L scan_id scan_results (w, l) = (o, (w', l))
    /\ sent w' = sent w
    /\ active_connections w' = active_connections w
    /\ (o = Ok tt \/ exists e : exn, o = Raise e)
    /\ (stored w' = stored w
        \/ stored w' = mark_completed scan_id scan_results (stored w)).
Proof.
  unfold update_record, bind. rewrite load_scans_run.
  unfold loaded, stored, update_scans, dump_scans, bind, get_world,
    modify_world, may_raise, ret, raise.
  destruct (scans_file w) as [|[|] [|] [e|v|scans]] eqn:Hf;
    cbn [fst snd];
    rewrite ?complete_scan_run; cbn [fst snd scans_file log_all];
    rewrite ?Hf; cbn [fst snd];
    try (destruct (first_item_error v) as [e'|]; cbn [fst snd];
         rewrite ?Hf; cbn [fst snd]);
    do 2 eexists; (split; [reflexivity|]);
    cbn [sent active_connections scans_file put_scans_file log_all
           content_of];
    rewrite ?Hf; repeat split; eauto.
Qed.

Lemma stored_push_sent (e : event) (fate : option exn) (w : World) :
  stored (push_sent e fate w) = stored w.
Proof. reflexivity. Qed.

Lemma stored_same_file (w w' : World) :
  scans_file w' = scans_file w -> stored w' = stored w.
Proof. unfold stored. now intros ->. Qed.

(** The records after the save and the update of the handler, each of
    which may have failed, on a store without the id. *)
Lemma store_tail (scan_id : string) (scan_results : option ScanResult.t)
  (s0 s1 s3 : list ScanRecord.t) (rec : ScanRecord.t) :
  ScanRecord.id rec = scan_id ->
  ScanRecord.status rec = "running" ->
  s1 = s0 \/ s1 = (s0 ++ [rec])%list ->
  s3 = s1 \/ s3 = mark_completed scan_id scan_results s1 ->
  fresh_id scan_id s0 = true ->
  exists tail : list ScanRecord.t,
    s3 = (s0 ++ tail)%list
    /\ (tail = []
        \/ exists rec',
             tail = [rec']
             /\ ScanRecord.id rec' = scan_id
             /\ (ScanRecord.status rec' = "running"
                 \/ ScanRecord.status rec' = "completed")).
Proof.
  intros Hid Hstatus H1 H3 Hfresh.
  destruct H1 as [-> | ->].
  - exists []. split; [|now left]. rewrite app_nil_r.
    destruct H3 as [-> | ->]; [reflexivity|].
    now apply mark_completed_fresh.
  - destruct H3 as [-> | ->].
    + exists [rec]. split; [reflexivity|]. right. exists rec. auto.
    + rewrite mark_completed_last by assumption.
      eexists. split; [reflexivity|]. right. eexists.
      split; [reflexivity|]. destruct scan_results; simpl; auto.
Qed.

(** ** Progress channel handler *)

Section HandlerExtras.

Context {JD : JsonDecoder}.

(** [run_scan] on any channel and engine: the store and the connections
    are left alone, and nothing outside the [Exception] hierarchy leaves
    it but what the engine raised. *)
Lemma run_scan_cases {L : Type} (env : Env) (model_name : string)
  (probes : list string) (detectors : option (list string))
  (websocket : WebSocket) (scan_id : string) (w : World) (l : L) :
  exists (r : outcome (option ScanResult.t)) (w' : World),
    run_scan env model_name probes detectors websocket scan_id (w, l)
    = (r, (w', l))
    /\ scans_file w' = scans_file w
    /\ active_connections w' = active_connections w
    /\ (forall cls msg,
           r = Raise (BaseException cls msg) ->
           engine_raises
             (cli_main env
                (garak_args env model_name probes detectors
                            (DATA_DIR ++ "/" ++ scan_id)))
           = Some (BaseException cls msg)).
Proof.
  unfold run_scan. run_all.
  all: do 2 eexists; (split; [reflexivity|]); split; [reflexivity|];
    split; [reflexivity|].
  all: intros c m' H; try discriminate H.
  all: injection H as <- <-; reflexivity.
Qed.

(** Every end of the handler of an accepted connection. *)
Lemma websocket_scan_cases (env : Env) (websocket : WebSocket) (w : World) :
  ws_accept websocket = None ->
  exists (r : outcome unit) (w' : World),
    websocket_scan env websocket (w, tt) = (r, (w', tt))
    /\ active_connections w'
       = remove_first (ws_id websocket)
           (active_connections w ++ [ws_id websocket])
    /\ (r = Ok tt
        \/ exists args cls msg,
             engine_raises (cli_main env args) = Some (BaseException cls msg)
             /\ r = Raise (BaseException cls msg))
    /\ (fresh_id (uuid4 env) (stored w) = true ->
        exists tail : list ScanRecord.t,
          stored w' = (stored w ++ tail)%list
          /\ (tail = []
              \/ exists rec,
                   tail = [rec]
                   /\ ScanRecord.id rec = uuid4 env
                   /\ (ScanRecord.status rec = "running"
                       \/ ScanRecord.status rec = "completed"))).
Proof.
  intros Ha. unfold websocket_scan, try_finally. rewrite Ha.
  unfold get_world, getitem.
  run_all.
  destruct (ws_receive_json websocket) as [data|e].
  - run_all.
    destruct (data_model_name data) as [m|];
      [destruct (data_probes data) as [ps|]|].
    + run_all.
      match goal with
      | |- context [save_scan ?rec (?w0, tt)] =>
          destruct (save_scan_cases (L := unit) rec w0 tt)
            as (o & w1 & Hsave & Hsent1 & Hact1 & Ho1 & Hst1);
          rewrite Hsave; clear Hsave
      end.
      cbn [active_connections put_connections push_log] in Hact1.
      rewrite !stored_push_log, !stored_put_connections in Hst1.
      destruct Ho1 as [-> | [[e ->] _]].
      * match goal with
        | |- context [run_scan ?a ?b ?c ?d ?e ?f (?w0, tt)] =>
            destruct (run_scan_cases (L := unit) a b c d e f w0 tt)
              as (r & w2 & Hrun & Hfile2 & Hact2 & Hbase);
            rewrite Hrun; clear Hrun
        end.
        apply stored_same_file in Hfile2. rewrite Hact1 in Hact2.
        destruct r as [res|[e|cls msg]].
        -- destruct (update_record_cases (L := unit) (uuid4 env) res w2 tt)
             as (o3 & w3 & Hupd & Hsent3 & Hact3 & Ho3 & Hst3).
           rewrite Hupd; clear Hupd.
           rewrite Hact2 in Hact3. rewrite Hfile2 in Hst3.
           destruct Ho3 as [-> | [e ->]]; [|destruct e as [text|cls msg]].
           all: run_all.
           all: cbn [active_connections put_connections push_log push_sent].
           all: rewrite Hact3, py_in_last.
           all: do 2 eexists; split; [reflexivity|].
           all: cbn [fst active_connections put_connections push_log
                       push_sent].
           all: rewrite ?Hact3.
           all: split; [reflexivity|]; split; [now left|].
           all: rewrite ?stored_put_connections, ?stored_push_sent,
                  ?stored_push_log.
           all: intros Hfresh;
             eapply (store_tail (uuid4 env) res (stored w) (stored w1)
                       (stored w3));
             [ | | exact Hst1 | exact Hst3 | exact Hfresh]; reflexivity.
        -- destruct e as [text|cls msg]; run_all.
           all: cbn [active_connections put_connections push_log push_sent].
           all: rewrite Hact2, py_in_last.
           all: do 2 eexists; split; [reflexivity|].
           all: cbn [fst active_connections put_connections push_log
                       push_sent].
           all: rewrite ?Hact2.
           all: split; [reflexivity|]; split; [now left|].
           all: rewrite ?stored_put_connections, ?stored_push_sent,
                  ?stored_push_log, Hfile2.
           all: intros Hfresh;
             eapply (store_tail (uuid4 env) None (stored w) (stored w1)
                       (stored w1));
             [ | | exact Hst1 | now left | exact Hfresh]; reflexivity.
        -- run_all. rewrite Hact2, py_in_last.
           do 2 eexists; split; [reflexivity|].
           cbn [fst active_connections put_connections]. rewrite Hact2.
           split; [reflexivity|]. split.
           ++ right. do 3 eexists. split; [|reflexivity].
              now apply Hbase.
           ++ rewrite stored_put_connections, Hfile2.
              intros Hfresh;
                eapply (store_tail (uuid4 env) None (stored w) (stored w1)
                          (stored w1));
                [ | | exact Hst1 | now left | exact Hfresh]; reflexivity.
      * destruct e as [text|cls msg]; run_all.
        all: cbn [active_connections put_connections push_log push_sent].
        all: rewrite Hact1, py_in_last.
        all: do 2 eexists; split; [reflexivity|].
        all: cbn [fst active_connections put_connections push_log
                    push_sent].
        all: rewrite ?Hact1.
        all: split; [reflexivity|]; split; [now left|].
        all: rewrite ?stored_put_connections, ?stored_push_sent,
               ?stored_push_log.
        all: intros Hfresh;
          eapply (store_tail (uuid4 env) None (stored w) (stored w1)
                    (stored w1));
          [ | | exact Hst1 | now left | exact Hfresh]; reflexivity.
    + run_all.
      all: cbn [active_connections put_connections push_log push_sent].
      all: rewrite py_in_last.
      all: do 2 eexists; split; [reflexivity|].
      all: split; [reflexivity|]; split; [now left|].
      all: intros _; exists []; split; [|now left].
      all: now rewrite app_nil_r.
    + run_all.
      all: cbn [active_connections put_connections push_log push_sent].
      all: rewrite py_in_last.
      all: do 2 eexists; split; [reflexivity|].
      all: split; [reflexivity|]; split; [now left|].
      all: intros _; exists []; split; [|now left].
      all: now rewrite app_nil_r.
  - destruct e as [text|cls msg]; run_all.
    all: cbn [active_connections put_connections push_log push_sent].
    all: rewrite py_in_last.
    all: do 2 eexists; split; [reflexivity|].
    all: split; [reflexivity|]; split; [now left|].
    all: intros _; exists []; split; [|now left].
    all: now rewrite app_nil_r.
Qed.

(** X9: the handler never leaks a connection: whatever the client, the
    engine and the store do, every connection is in the list of active
    connections as often after [websocket_scan] as before, and the list is
    the same when the connection was not in it. *)
Theorem websocket_scan_restores_connections (env : Env)
  (websocket : WebSocket) (w : World) :
  let w' := fst (snd (websocket_scan env websocket (w, tt))) in
  (forall c,
      count_occ Nat.eq_dec (active_connections w') c
      = count_occ Nat.eq_dec (active_connections w) c)
  /\ (~ In (ws_id websocket) (active_connections w) ->
      active_connections w' = active_connections w).
Proof.
  destruct (ws_accept websocket) as [e|] eqn:Ha.
  - unfold websocket_scan, bind, may_raise, raise. rewrite Ha. simpl.
    split; auto.
  - destruct (websocket_scan_cases env websocket w Ha)
      as (r & w' & -> & Hc & _).
    cbn [fst snd]. rewrite Hc. split.
    + intros c. apply count_occ_remove_first_last.
    + apply remove_first_last.
Qed.

(** X10: no exception of the [Exception] hierarchy leaves the handler of
    an accepted connection: a failing receive, a missing key, a failing
    save, a failing scan, a failing update and a failing send are all
    caught. What leaves it is what the engine raised outside that
    hierarchy, as [SystemExit], which neither [run_garak] nor [run_scan]
    nor the handler catches. When the connection cannot be accepted, the
    exception is raised and nothing has changed. *)
Theorem websocket_scan_catches_exceptions (env : Env)
  (websocket : WebSocket) (w : World) :
  match ws_accept websocket with
  | None =>
      fst (websocket_scan env websocket (w, tt)) = Ok tt
      \/ exists args cls msg,
           engine_raises (cli_main env args) = Some (BaseException cls msg)
           /\ fst (websocket_scan env websocket (w, tt))
              = Raise (BaseException cls msg)
  | Some e => websocket_scan env websocket (w, tt) = (Raise e, (w, tt))
  end.
Proof.
  destruct (ws_accept websocket) as [e|] eqn:Ha.
  - unfold websocket_scan, bind, may_raise, raise. now rewrite Ha.
  - destruct (websocket_scan_cases env websocket w Ha)
      as (r & w' & -> & _ & Hr & _).
    exact Hr.
Qed.

(** X11: a request without its ["model_name"] or without its ["probes"] is
    answered with one [error] event that names the missing key; no record
    is saved and no scan is started. *)
Theorem websocket_scan_missing_key (env : Env) (websocket : WebSocket)
  (w : World) (data : RequestData) :
  ws_accept websocket = None ->
  ws_receive_json websocket = Ok data ->
  data_model_name data = None \/ data_probes data = None ->
  exists (w' : World) (key : string),
    websocket_scan env websocket (w, tt) = (Ok tt, (w', tt))
    /\ key = match data_model_name data with
             | None => "model_name"
             | Some _ => "probes"
             end
    /\ scans_file w' = scans_file w
    /\ sent w'
       = (sent w
            ++ [(Error ("'" ++ key ++ "'"),
                 ws_link websocket (List.length (sent w)))])%list.
Proof.
  intros Ha Hr Hmiss. unfold websocket_scan, try_finally.
  rewrite Ha, Hr. unfold get_world, getitem.
  run_all.
  destruct (data_model_name data) as [m|].
  - destruct Hmiss as [Hm | Hp]; [discriminate|]. rewrite Hp.
    run_all.
    all: cbn [active_connections put_connections push_log push_sent].
    all: rewrite py_in_last.
    all: do 2 eexists; split; [reflexivity|]; split; [reflexivity|].
    all: cbn [fst scans_file sent put_connections push_log push_sent
                List.length].
    all: split; [reflexivity|].
    all: match goal with
         | E : ws_link _ _ = _ |- _ => cbn [sent List.length push_log
                                              put_connections] in E;
                                       rewrite E
         end; reflexivity.
  - run_all.
    all: cbn [active_connections put_connections push_log push_sent].
    all: rewrite py_in_last.
    all: do 2 eexists; split; [reflexivity|]; split; [reflexivity|].
    all: cbn [fst scans_file sent put_connections push_log push_sent
                List.length].
    all: split; [reflexivity|].
    all: match goal with
         | E : ws_link _ _ = _ |- _ => cbn [sent List.length push_log
                                              put_connections] in E;
                                       rewrite E
         end; reflexivity.
Qed.

End HandlerExtras.

Lemma websocket_scan_missing_key_witness :
  exists w' : World,
    @websocket_scan json_decoder (sample_env engine_success)
      client_without_model (idle_world, tt) = (Ok tt, (w', tt))
    /\ scans_file w' = Scans []
    /\ sent w' = [(Error "'model_name'", None)].
Proof.
  destruct (@websocket_scan_missing_key json_decoder
              (sample_env engine_success) client_without_model idle_world
              request_without_model eq_refl eq_refl (or_introl eq_refl))
    as (w' & key & Hrun & -> & Hfile & Hsent).
  exists w'. repeat split; assumption.
Defined.

Section StoreThroughHandler.

Context {JD : JsonDecoder}.



(** [run_scan] with an engine that leaves outside the [Exception]
    hierarchy, on a channel that delivers every message: the three
    progress messages before the engine call are all that is sent, and the
    engine's exception is raised to the caller. *)
Lemma run_scan_engine_exits {L : Type} (env : Env) (model_name : string)
  (probes : list string) (detectors : option (list string))
  (websocket : WebSocket) (scan_id : string) (w : World) (l : L)
  (cls msg : string) :
  (forall n, ws_link websocket n = None) ->
  import_garak env = None ->
  mkdir env (DATA_DIR ++ "/" ++ scan_id) = None ->
  engine_raises
    (cli_main env
       (garak_args env model_name probes detectors
                   (DATA_DIR ++ "/" ++ scan_id)))
  = Some (BaseException cls msg) ->
  run_scan env model_name probes detectors websocket scan_id (w, l)
  = (Raise (BaseException cls msg),
     (push_sent (Status "Running scan..." 20) None
        (push_sent (Status "Initializing Garak..." 10) None
           (push_sent (Status ("Starting scan on model: " ++ model_name) 0)
                      None w)), l)).
Proof.
  intros Hall Himport Hmkdir Hexit. unfold run_scan.
  unfold call, try_except, bind, run_garak, try_except, bind, may_raise_any,
    may_raise, raise, ret.
  cbn [fst snd]. rewrite !send_json_run, !Hall, Himport, Hmkdir.
  cbn [fst snd]. rewrite !send_json_run, !Hall.
  cbn [fst snd]. rewrite Hexit. reflexivity.
Qed.

(** X22: an engine that leaves through [sys.exit] takes the handler with
    it. On a channel that delivers every message and a store [save_scan]
    gets through, the handler raises the engine's exception to the server;
    the client has received the progress messages 0, 10 and 20 and no
    terminal event, the record of the scan stays [running], no error is
    logged, and the connection is removed all the same. *)
Theorem websocket_scan_engine_exit (env : Env) (websocket : WebSocket)
  (w : World) (data : RequestData) (m : string) (ps : list string)
  (cls msg : string) :
  ws_accept websocket = None ->
  ws_receive_json websocket = Ok data ->
  data_model_name data = Some m ->
  data_probes data = Some ps ->
  store_usable w = true ->
  (forall n, ws_link websocket n = None) ->
  import_garak env = None ->
  mkdir env (DATA_DIR ++ "/" ++ uuid4 env) = None ->
  engine_raises
    (cli_main env
       (garak_args env m ps (data_detectors data)
                   (DATA_DIR ++ "/" ++ uuid4 env)))
  = Some (BaseException cls msg) ->
  exists w' : World,
    websocket_scan env websocket (w, tt)
    = (Raise (BaseException cls msg), (w', tt))
    /\ scans_file w' = Scans (stored w ++ [running_record env m ps data])
    /\ delivered w'
       = (delivered w
            ++ [Status ("Starting scan on model: " ++ m) 0;
                Status "Initializing Garak..." 10;
                Status "Running scan..." 20])%list
    /\ filter (fun entry => match fst entry with
                            | ERROR => true
                            | INFO => false
                            end) (log w')
       = filter (fun entry => match fst entry with
                              | ERROR => true
                              | INFO => false
                              end) (log w)
    /\ active_connections w'
       = remove_first (ws_id websocket)
           (active_connections w ++ [ws_id websocket]).
Proof.
  intros Ha Hr Hm Hp Husable Hall Himport Hmkdir Hexit.
  unfold websocket_scan, try_finally. rewrite Ha, Hr.
  unfold get_world, getitem. run_all. rewrite Hm, Hp. run_all.
  rewrite save_scan_run by exact Husable.
  rewrite (run_scan_engine_exits env m ps (data_detectors data) websocket
             (uuid4 env) _ tt cls msg Hall Himport Hmkdir Hexit).
  cbn [active_connections put_connections put_scans_file push_log push_sent
         fst snd].
  rewrite py_in_last.
  eexists. split; [reflexivity|].
  cbn [fst scans_file active_connections log put_connections put_scans_file
         push_log push_sent].
  rewrite !stored_push_log, stored_put_connections.
  split; [reflexivity|]. split.
  - collect_delivered. cbn [delivered sent put_connections put_scans_file
                              push_log push_sent].
    unfold delivered. cbn [sent put_connections put_scans_file push_log
                             push_sent].
    rewrite !filter_app, !map_app. cbn. now rewrite <- !app_assoc.
  - split; [|reflexivity].
    rewrite !filter_app. cbn. now rewrite !app_nil_r.
Qed.

End StoreThroughHandler.



Lemma websocket_scan_engine_exit_witness :
  exists w' : World,
    @websocket_scan json_decoder (sample_env engine_exit) client_staying
      (idle_world, tt) = (Raise (BaseException "SystemExit" "2"), (w', tt))
    /\ scans_file w' = Scans [sample_running]
    /\ terminal_events w' = []
    /\ active_connections w' = [].
Proof.
  destruct (@websocket_scan_engine_exit json_decoder (sample_env engine_exit)
              client_staying idle_world sample_request "llama3"
              ["dan.DAN_Jailbreak"] "SystemExit" "2"
              eq_refl eq_refl eq_refl eq_refl eq_refl (fun n => eq_refl)
              eq_refl eq_refl eq_refl)
    as (w' & Hrun & Hfile & Hsent & _ & Hconn).
  exists w'. split; [exact Hrun|]. split; [exact Hfile|]. split.
  - unfold terminal_events. rewrite Hsent. reflexivity.
  - exact Hconn.
Defined.

(** ** Scan record store and query endpoints *)

Lemma loaded_records (w : World) :
  (forall writable v, scans_file w <> File true writable (Holds v)) ->
  loaded w = RecordList (stored w).
Proof.
  unfold loaded, stored. intros Hno.
  destruct (scans_file w) as [|[|] wr [e|v|scans]]; try reflexivity.
  now destruct (Hno wr v).
Qed.


(** X15: the update loop rewrites one record at most, the first one with
    the id: its status becomes [completed], its results are replaced when
    there are new ones and kept when there are none, and every other
    record, also a later one with the same id, stays as it is. When no
    record has the id, the records come back unchanged and nothing is
    logged. *)
Theorem complete_scan_rewrites_first_match {L : Type} (scan_id : string)
  (scan_results : option ScanResult.t) (w : World) (l : L) :
  (forall scans,
      fresh_id scan_id scans = true ->
      @complete_scan L scan_id scan_results scans (w, l)
      = (Ok scans, (w, l)))
  /\ (forall pre scan post,
         fresh_id scan_id pre = true ->
         ScanRecord.id scan = scan_id ->
         exists w' : World,
           @complete_scan L scan_id scan_results (pre ++ scan :: post) (w, l)
           = (Ok (pre
                    ++ ScanRecord.mk (ScanRecord.id scan)
                         (ScanRecord.timestamp scan)
                         (ScanRecord.model_name scan)
                         (ScanRecord.probes scan)
                         (ScanRecord.detectors scan)
                         (ScanRecord.description scan)
                         "completed"
                         (match scan_results with
                          | Some res => Some res
                          | None => ScanRecord.results scan
                          end)
                    :: post)%list,
              (w', l))
           /\ scans_file w' = scans_file w
           /\ sent w' = sent w).
Proof.
  split.
  - intros scans Hfresh. rewrite complete_scan_run.
    destruct (mark_completed_fresh scan_id scan_results scans Hfresh)
      as [-> ->].
    now rewrite log_all_nil.
  - intros pre scan post Hfresh Hid. rewrite complete_scan_run.
    rewrite mark_completed_first by assumption.
    eexists. repeat split.
Qed.

(** X16: when [scans.json] holds records, or is missing, or cannot be read
    or decoded, [get_scan] returns the first stored record with the id and
    changes nothing, and it raises the 404 error exactly when no stored
    record has the id, which is the case for every id when there are no
    records. When the file holds a value that is not a list, [get_scan]
    raises the [TypeError] of the search, or the 404 error when the value
    has nothing to iterate over. *)
Theorem get_scan_returns_first_match {L : Type} (scan_id : string)
  (w : World) (l : L) :
  ((forall writable v, scans_file w <> File true writable (Holds v)) ->
   (fresh_id scan_id (stored w) = true ->
    @get_scan L scan_id (w, l)
    = (Raise (http_exception "404" "Scan not found"), (w, l)))
   /\ (forall pre scan post,
          stored w = (pre ++ scan :: post)%list ->
          fresh_id scan_id pre = true ->
          ScanRecord.id scan = scan_id ->
          @get_scan L scan_id (w, l) = (Ok scan, (w, l)))
   /\ (fresh_id scan_id (stored w) = false ->
       exists scan,
         @get_scan L scan_id (w, l) = (Ok scan, (w, l))
         /\ ScanRecord.id scan = scan_id
         /\ In scan (stored w)))
  /\ (forall writable v,
         scans_file w = File true writable (Holds v) ->
         @get_scan L scan_id (w, l)
         = (match first_item_error v with
            | Some e => Raise e
            | None => Raise (http_exception "404" "Scan not found")
            end, (w, l))).
Proof.
  split.
  - intros Hrecords.
    unfold get_scan, bind. rewrite load_scans_run, (loaded_records w Hrecords).
    unfold first_with_id, ret. cbn [fst snd]. split; [|split].
    + intros Hfresh. now rewrite find_fresh.
    + intros pre scan post -> Hfresh Hid. now rewrite find_first_match.
    + intros Hold.
      destruct (find (fun s => String.eqb (ScanRecord.id s) scan_id)
                     (stored w)) as [scan|] eqn:Hfind.
      * apply find_some in Hfind as [Hin Heq].
        apply String.eqb_eq in Heq. exists scan. auto.
      * exfalso. unfold fresh_id in Hold.
        assert (forallb
                  (fun scan => negb (String.eqb (ScanRecord.id scan) scan_id))
                  (stored w) = true) as Hall; [|congruence].
        apply forallb_forall. intros x Hx.
        apply (find_none _ _ Hfind) in Hx. now rewrite Hx.
  - intros wr v Hf.
    unfold get_scan, bind. rewrite load_scans_run. unfold loaded. rewrite Hf.
    unfold first_with_id, bind, may_raise, ret, raise.
    now destruct (first_item_error v).
Qed.

Section ReportExtras.

Context {JD : JsonDecoder}.

(** X17: the report endpoint and the parser agree: for a scan directory
    that exists, [get_scan_report] serves a file exactly when
    [parse_results] records a report, the file served is the one whose
    name is recorded, and the recorded path is the route of the endpoint;
    when the parser records no report the endpoint answers 404, as it does
    when the directory is missing. *)
Theorem get_scan_report_agrees_with_parse_results {L : Type} (disk : Disk)
  (scan_id : string) (w : World) (l : L) :
  match disk (DATA_DIR ++ "/" ++ scan_id) with
  | None =>
      @get_scan_report L disk scan_id (w, l)
      = (Raise (http_exception "404" "Scan directory not found"), (w, l))
  | Some entries =>
      exists (r : ScanResult.t) (w' : World),
        parse_results
          {| dir_path := DATA_DIR ++ "/" ++ scan_id; dir_entries := entries |}
          scan_id (w, l) = (Ok r, (w', l))
        /\ match ScanResult.report_html r with
           | Some name =>
               @get_scan_report L disk scan_id (w, l)
               = (Ok {| response_path :=
                          (DATA_DIR ++ "/" ++ scan_id) ++ "/" ++ name;
                        response_media_type := "text/html";
                        response_filename :=
                          "scan_" ++ scan_id ++ "_report.html" |},
                  (w, l))
               /\ ScanResult.report_path r
                  = Some ("/api/scans/" ++ scan_id ++ "/report")
           | None =>
               @get_scan_report L disk scan_id (w, l)
               = (Raise (http_exception "404" "Report not found"), (w, l))
               /\ ScanResult.report_path r = None
           end
  end.
Proof.
  unfold get_scan_report.
  destruct (disk (DATA_DIR ++ "/" ++ scan_id)) as [entries|];
    [|reflexivity].
  rewrite parse_results_run. do 2 eexists. split; [reflexivity|].
  unfold parsed, report_fields.
  destruct (glob _ "report" ".html") as [|first others]; simpl.
  - split; reflexivity.
  - split; reflexivity.
Qed.

End ReportExtras.

Lemma complete_scan_rewrites_first_match_witness :
  fst (@complete_scan unit "scan-1" None [earlier_scan; sample_running]
         (idle_world, tt))
  = Ok [earlier_scan; ScanRecord.set_status "completed" sample_running]
  /\ @complete_scan unit "scan-9" None [earlier_scan; sample_running]
       (idle_world, tt)
     = (Ok [earlier_scan; sample_running], (idle_world, tt)).
Proof.
  destruct (@complete_scan_rewrites_first_match unit "scan-1" None
              idle_world tt) as [_ Hfirst].
  destruct (@complete_scan_rewrites_first_match unit "scan-9" None
              idle_world tt) as [Hnone _].
  split.
  - destruct (Hfirst [earlier_scan] sample_running [] eq_refl eq_refl)
      as (w' & Hrun & _).
    exact (f_equal fst Hrun).
  - apply Hnone. reflexivity.
Defined.

Lemma get_scan_returns_first_match_witness :
  @get_scan unit "scan-1" (stored_world, tt) = (Ok sample_running,
                                                (stored_world, tt))
  /\ @get_scan unit "scan-9" (stored_world, tt)
     = (Raise (http_exception "404" "Scan not found"), (stored_world, tt))
  /\ @get_scan unit "scan-1" (wrapped_world, tt)
     = (Raise (Exception "TypeError"
                 "string indices must be integers, not 'str'"),
        (wrapped_world, tt)).
Proof.
  split; [|split].
  - apply (proj1 (proj2 (proj1 (@get_scan_returns_first_match unit "scan-1"
                                  stored_world tt)
                           ltac:(discriminate)))
             [earlier_scan] sample_running []); reflexivity.
  - apply (proj1 (proj1 (@get_scan_returns_first_match unit "scan-9"
                           stored_world tt)
                    ltac:(discriminate))).
    reflexivity.
  - apply (proj2 (@get_scan_returns_first_match unit "scan-1"
                    wrapped_world tt)
             true (PyDict [("scans", JArray [])])).
    reflexivity.
Defined.

(** [save_scan] on the object [{"scans": []}], on a file that may not be
    written and on a file that may not be read. *)
Lemma save_scan_on_unusable_store :
  @save_scan unit sample_running (wrapped_world, tt)
  = (Raise (Exception "AttributeError"
              "'dict' object has no attribute 'append'"),
     (wrapped_world, tt))
  /\ @save_scan unit sample_running (read_only_world, tt)
     = (Raise (Exception "PermissionError" "Permission denied"),
        (read_only_world, tt))
  /\ stored (fst (snd (@save_scan unit sample_running (write_only_world, tt))))
     = [].
Proof. repeat split. Qed.

(** ** Model inventory client *)

(** X18: [list_models] never raises. When the server answers, the status
    check passes and the body is a JSON object, the endpoint returns what
    the object holds under ["models"], or the empty list when the key is
    missing, and logs nothing. In every other case (no answer, an error
    status, a body that is not JSON, a body that is not an object) it
    returns the empty list and logs one error, which carries the text of
    the exception. *)
Theorem list_models_never_raises {L : Type} (http : Httpx) (w : World)
  (l : L) :
  let failed (e : exn) (v : json) (w' : World) :=
    v = JArray []
    /\ w' = push_log ERROR ("Error listing Ollama models: " ++ str_exn e) w in
  exists (v : json) (w' : World),
    list_models http (w, l) = (Ok v, (w', l))
    /\ (forall resp members,
           http (ollama_base_url ++ "/api/tags") None = Ok resp ->
           raise_for_status resp = None ->
           response_json resp = Ok (JObject members) ->
           w' = w
           /\ v = match members_get "models" members with
                  | Some models => models
                  | None => JArray []
                  end)
    /\ (forall e,
           http (ollama_base_url ++ "/api/tags") None = Raise e ->
           failed e v w')
    /\ (forall resp e,
           http (ollama_base_url ++ "/api/tags") None = Ok resp ->
           raise_for_status resp = Some e ->
           failed e v w')
    /\ (forall resp e,
           http (ollama_base_url ++ "/api/tags") None = Ok resp ->
           raise_for_status resp = None ->
           response_json resp = Raise e ->
           failed e v w')
    /\ (forall resp data,
           http (ollama_base_url ++ "/api/tags") None = Ok resp ->
           raise_for_status resp = None ->
           response_json resp = Ok data ->
           (forall members, data <> JObject members) ->
           failed (no_attribute (json_type data) "get") v w').
Proof.
  cbv zeta.
  unfold list_models, OllamaClient.list_models, lift_outcome, lift_result,
    json_get.
  unfold bind, try_except, may_raise, ret, raise, logger_error, modify_world.
  cbn [fst snd].
  destruct (http (ollama_base_url ++ "/api/tags") None) as [resp|e] eqn:Hget;
    [destruct (raise_for_status resp) as [e|] eqn:Hstatus;
     [|destruct (response_json resp) as [data|e] eqn:Hjson;
       [destruct data as [| | | | |members] eqn:Hdata;
        [| | | | |destruct (members_get "models" members) as [models|]
                    eqn:Hmodels]|]]|].
  all: do 2 eexists; split; [reflexivity|].
  all: cbn [fst snd]; repeat split; intros.
  all: repeat match goal with
         | H : Ok _ = Ok _ |- _ => injection H as H; subst
         | H : @Ok exn json _ = _ |- _ => symmetry in H
         end.
  all: try congruence.
  all: try match goal with
         | H1 : response_json ?r = _, H2 : response_json ?r = _ |- _ =>
             rewrite H1 in H2; injection H2 as H2; subst
         end.
  all: try congruence.
  all: try (rewrite Hmodels; reflexivity).
  all: match goal with
       | H : forall members, _ <> JObject members |- _ =>
           now destruct (H members)
       end.
Qed.

(** X19: [health_check] never raises and changes nothing; it reports the
    API as healthy, and Ollama as connected exactly when the request with
    the two-second time-out got an answer with status 200. *)
Theorem health_check_reports_connection {L : Type} (http : Httpx)
  (w : World) (l : L) :
  exists b : bool,
    health_check http (w, l)
    = (Ok ("healthy", if b then "connected" else "disconnected"), (w, l))
    /\ (b = true
        <-> exists resp,
              http (ollama_base_url ++ "/api/tags") (Some 2) = Ok resp
              /\ status_code resp = 200).
Proof.
  unfold health_check, OllamaClient.check_connection, lift_outcome.
  unfold lift_result, bind, try_except_all, ret, raise. cbn [fst snd].
  destruct (http (ollama_base_url ++ "/api/tags") (Some 2)) as [resp|e].
  - exists (Nat.eqb (status_code resp) 200). split; [reflexivity|]. split.
    + intros H. exists resp. split; [reflexivity|]. now apply Nat.eqb_eq.
    + intros (resp' & H & Hs). injection H as <-. now apply Nat.eqb_eq.
  - exists false. split; [reflexivity|]. split; [discriminate|].
    intros (resp & H & _). discriminate H.
Qed.

Lemma list_models_never_raises_witness :
  @list_models unit ollama_up (idle_world, tt)
  = (Ok (JArray [JObject [("name", JString "llama3")]]), (idle_world, tt))
  /\ @list_models unit ollama_failing (idle_world, tt)
     = (Ok (JArray []),
        (push_log ERROR "Error listing Ollama models: Server error '500'"
                  idle_world, tt))
  /\ @list_models unit ollama_down (idle_world, tt)
     = (Ok (JArray []),
        (push_log ERROR
           "Error listing Ollama models: All connection attempts failed"
           idle_world, tt)).
Proof.
  split; [|split].
  - destruct (@list_models_never_raises unit ollama_up idle_world tt)
      as (v & w' & Hrun & Hok & _).
    destruct (Hok _ _ eq_refl eq_refl eq_refl) as [-> ->].
    exact Hrun.
  - destruct (@list_models_never_raises unit ollama_failing idle_world tt)
      as (v & w' & Hrun & _ & _ & Hstatus & _).
    destruct (Hstatus _ _ eq_refl eq_refl) as [-> ->].
    exact Hrun.
  - destruct (@list_models_never_raises unit ollama_down idle_world tt)
      as (v & w' & Hrun & _ & Hdown & _).
    destruct (Hdown _ eq_refl) as [-> ->].
    exact Hrun.
Defined.

(** ** Plugin catalogue *)

Lemma str_or_not_empty (x : option string) (y : string) :
  y <> "" -> str_or x y <> "".
Proof. intros Hy. destruct x as [[|a t]|]; simpl; auto; discriminate. Qed.

Lemma append_not_empty (label path : string) : label ++ ": " ++ path <> "".
Proof. destruct label; simpl; discriminate. Qed.

Lemma plugin_entry_described (label : string) (registry : Registry)
  (path : string) (is_default : bool) :
  exists entry : PluginListing,
    plugin_entry label registry path is_default = Ok entry
    /\ listed (path, is_default) entry
    /\ described label registry entry.
Proof.
  unfold plugin_entry. eexists. split; [reflexivity|]. split.
  - repeat split.
  - unfold described. cbn [listing_id listing_description listing_tags].
    split; [|split].
    + apply str_or_not_empty, str_or_not_empty, append_not_empty.
    + intros e He. rewrite He. split; reflexivity.
    + intros info Hinfo. rewrite Hinfo. split; [reflexivity|]. split.
      * intros d Hd Hne. rewrite Hd. destruct d; [now elim Hne | reflexivity].
      * intros Hnone. split.
        -- intros g Hg Hne.
           destruct Hnone as [-> | ->]; simpl; rewrite Hg;
             (destruct g; [now elim Hne | reflexivity]).
        -- intros Hgoal.
           destruct Hnone as [-> | ->], Hgoal as [-> | ->]; reflexivity.
Qed.

Lemma plugin_entries_listed (label noun : string) (registry : Registry)
  (plugins : list (string * bool)) :
  snd (plugin_entries label noun registry plugins) = []
  /\ Forall2 listed plugins
             (fst (plugin_entries label noun registry plugins))
  /\ Forall (described label registry)
            (fst (plugin_entries label noun registry plugins)).
Proof.
  induction plugins as [|[path is_default] rest (IHlog & IHl & IHd)];
    cbn [plugin_entries].
  - repeat split; constructor.
  - destruct (plugin_entry_described label registry path is_default)
      as (entry & -> & Hl & Hd).
    destruct (plugin_entries label noun registry rest) as [listing records].
    cbn [fst snd] in *. repeat split; auto.
Qed.

(** X20: the listing of the probes and the listing of the detectors have
    one dictionary per plugin of the registry, in the order of the
    registry, also for a plugin whose metadata cannot be fetched; its id,
    name and module are the plugin's identifier and its flag is the
    registry's. No warning is logged. When the registry cannot be imported
    or enumerated, the listing is empty and one error is logged. *)
Theorem get_available_lists_every_plugin (registry : Registry) :
  match import_plugins registry, enumerate_plugins registry "probes" with
  | None, Ok plugins =>
      snd (get_available_probes registry) = []
      /\ Forall2 listed plugins (fst (get_available_probes registry))
  | Some e, _ | None, Raise e =>
      get_available_probes registry
      = ([], [("ERROR", "Error getting probes: " ++ str_exn e)])
  end
  /\ match import_plugins registry,
           enumerate_plugins registry "detectors" with
     | None, Ok plugins =>
         snd (get_available_detectors registry) = []
         /\ Forall2 listed plugins (fst (get_available_detectors registry))
     | Some e, _ | None, Raise e =>
         get_available_detectors registry
         = ([], [("ERROR", "Error getting detectors: " ++ str_exn e)])
     end.
Proof.
  unfold get_available_probes, get_available_detectors, get_available.
  destruct (import_plugins registry) as [e|]; [split; reflexivity|].
  split.
  - destruct (enumerate_plugins registry "probes") as [plugins|e];
      [|reflexivity].
    destruct (plugin_entries_listed "Probe" "probe" registry plugins)
      as (Hlog & Hl & _). auto.
  - destruct (enumerate_plugins registry "detectors") as [plugins|e];
      [|reflexivity].
    destruct (plugin_entries_listed "Detector" "detector" registry plugins)
      as (Hlog & Hl & _). auto.
Qed.

(** X21: every dictionary of either listing has a description that is not
    empty: the description of the plugin's metadata, else its goal, else
    ["Probe: "] or ["Detector: "] and the identifier, where an empty text
    counts as a missing one; a plugin whose metadata cannot be fetched gets
    the last form and no tags, and a plugin without tags gets the empty
    list. *)
Theorem get_available_describes_every_plugin (registry : Registry) :
  Forall (described "Probe" registry) (fst (get_available_probes registry))
  /\ Forall (described "Detector" registry)
            (fst (get_available_detectors registry)).
Proof.
  unfold get_available_probes, get_available_detectors, get_available.
  destruct (import_plugins registry) as [e|]; [split; constructor|].
  split.
  - destruct (enumerate_plugins registry "probes") as [plugins|e];
      [|constructor].
    apply (plugin_entries_listed "Probe" "probe" registry plugins).
  - destruct (enumerate_plugins registry "detectors") as [plugins|e];
      [|constructor].
    apply (plugin_entries_listed "Detector" "detector" registry plugins).
Qed.

Lemma get_available_describes_every_plugin_witness :
  map listing_description (fst (get_available_probes sample_registry))
  = ["disregard the system prompt"; "Probe: probes.test.Blank"]
  /\ Forall (described "Probe" sample_registry)
            (fst (get_available_probes sample_registry)).
Proof.
  split; [reflexivity|].
  apply (get_available_describes_every_plugin sample_registry).
Defined.

(** ** Runs of the further properties *)

Lemma run_scan_progress_witness :
  exists w' : World,
    @run_scan json_decoder unit (sample_env engine_success) "llama3"
      ["dan.DAN_Jailbreak"] None client_staying "scan-1" (idle_world, tt)
    = (Ok (Some (ScanResult.mk [] [good_record; good_record]
                   (Some "report.html")
                   (Some "/api/scans/scan-1/report"))), (w', tt))
    /\ progress_values (attempted w') = [0; 10; 20; 100]
    /\ run_succeeds (sample_env engine_success) "llama3"
         ["dan.DAN_Jailbreak"] None "scan-1" = true.
Proof.
  destruct (@run_scan_progress json_decoder unit (sample_env engine_success)
              "llama3" ["dan.DAN_Jailbreak"] None client_staying "scan-1"
              idle_world tt)
    as (r & w' & new & k & Hrun & Hsent & _ & _ & Hdone).
  assert (Hc := Hrun). vm_compute in Hc. injection Hc as Hr Hw'.
  subst r w'. eexists. split; [exact Hrun|]. split; [reflexivity|].
  apply Hdone. simpl in Hsent. subst new. simpl. auto.
Defined.

Lemma websocket_scan_restores_connections_witness :
  active_connections
    (fst (snd (@websocket_scan json_decoder (sample_env engine_failure)
                 (client_leaving_after 3)
                 (put_connections [4; 2] idle_world, tt))))
  = [4; 2].
Proof.
  apply (@websocket_scan_restores_connections json_decoder
           (sample_env engine_failure) (client_leaving_after 3)
           (put_connections [4; 2] idle_world)).
  simpl. intros [H | [H | []]]; discriminate H.
Defined.
